(** * Template compiler of @embroider/core: a shallow embedding

    This development models [packages/core/src/template-compiler.ts]: the
    extraction of the Glimmer syntax API out of an application's
    [ember-template-compiler.js] bundle ([loadGlimmerSyntax]), the lazily set
    up [TemplateCompiler] class with its [precompile], [compile] and
    [applyTransforms] methods, the helpers [registerPlugins] and
    [initializeEmberENV], the broccoli filter [TemplateCompileTree] and the
    serialisation template of [PortableTemplateCompiler]; further the test
    [isInlinePrecompilePlugin] with its regular expression, and the funnel
    [Snitch] of [packages/compat/src/snitch.ts].

    Conventions.
    - A JavaScript string is the list of its UTF-16 code units ([jsstring]).
      Literals of the source are written [lit "..."].
    - A JavaScript value of type [any]/[unknown] is a [JSValue].
    - A JavaScript object read as plain data is a [gmap] from property
      names; an object that is written by assignment is a [Table], its own
      properties together with its prototype.
    - An exception is a result [Throw e]; a method of the class is a function
      from the state it can touch to a result and the new state ([M]).
    - What the code calls and does not define (the MD5 digest, the stable
      JSON printer, the JavaScript engine that runs the bundle) is a field
      of [Host]; the functions of the bundle are fields of what the engine
      returns. Every property is proved for every host.

    Layout: the model, a small bundle with its host for the examples, the
    properties, then the examples. *)

From Stdlib Require Import Ascii String.
From Stdlib Require DecimalNat.
From stdpp Require Import base numbers list option gmap fin_maps.

Open Scope list_scope.

(** ** JavaScript strings *)

Definition jsstring : Type := list N.

Fixpoint lit (s : string) : jsstring :=
  match s with
  | EmptyString => []
  | String a s' => N_of_ascii a :: lit s'
  end.
Arguments lit : simpl never.

(** The double quote character, code unit 34. *)
Definition dquote : jsstring := [34%N].

(** The line feed used by [lines.join("\n")]. *)
Definition newline : jsstring := [10%N].

(** Decimal rendering of a counter, as a template literal interpolates a
    non-negative integer. *)
Fixpoint uint_units (d : Decimal.uint) : jsstring :=
  match d with
  | Decimal.Nil => []
  | Decimal.D0 d' => 48%N :: uint_units d'
  | Decimal.D1 d' => 49%N :: uint_units d'
  | Decimal.D2 d' => 50%N :: uint_units d'
  | Decimal.D3 d' => 51%N :: uint_units d'
  | Decimal.D4 d' => 52%N :: uint_units d'
  | Decimal.D5 d' => 53%N :: uint_units d'
  | Decimal.D6 d' => 54%N :: uint_units d'
  | Decimal.D7 d' => 55%N :: uint_units d'
  | Decimal.D8 d' => 56%N :: uint_units d'
  | Decimal.D9 d' => 57%N :: uint_units d'
  end.

Definition number_toString (n : nat) : jsstring := uint_units (Nat.to_uint n).
Arguments number_toString : simpl never.

(** [Array.prototype.join]: the elements separated by [sep]. *)
Fixpoint join (sep : jsstring) (parts : list jsstring) : jsstring :=
  match parts with
  | [] => []
  | [p] => p
  | p :: rest => p ++ sep ++ join sep rest
  end.

(** [String.prototype.slice(-n)]: the last [n] code units, the whole string
    when it is shorter. *)
Definition slice_last (n : nat) (s : jsstring) : jsstring :=
  drop (length s - n) s.

(** [String.prototype.slice(0, -n)]: all but the last [n] code units. *)
Definition slice_but_last (n : nat) (s : jsstring) : jsstring :=
  take (length s - n) s.

(** ** JavaScript values *)

#[warnings="-register-all"]
Inductive JSValue : Type :=
| VUndefined
| VNull
| VBool (b : bool)
| VNum (n : Z)
| VStr (s : jsstring)
| VObj (props : gmap jsstring JSValue).

(** [ToBoolean]: what [if (v)] and [!v] test. Numbers are modelled by the
    integers, so [0] is the only falsy number. *)
Definition truthy (v : JSValue) : bool :=
  match v with
  | VUndefined | VNull => false
  | VBool b => b
  | VNum n => negb (n =? 0)%Z
  | VStr s => negb (bool_decide (s = []))
  | VObj _ => true
  end.

(** [Object.keys(v)] for a value that passed a truthiness test: the own
    enumerable property names. A string has its indices, a number or a boolean
    has none. *)
Definition Object_keys (v : JSValue) : list jsstring :=
  match v with
  | VObj props => (map_to_list props).*1
  | VStr s => number_toString <$> seq 0 (length s)
  | _ => []
  end.

(** The index a property name denotes on a string of that length, if any. *)
Definition string_index (s : jsstring) (prop : jsstring) : option nat :=
  fst <$> list_find (fun i => number_toString i = prop) (seq 0 (length s)).

(** [v[prop]] for an own property; a missing property reads [undefined]. *)
Definition get_prop (v : JSValue) (prop : jsstring) : JSValue :=
  match v with
  | VObj props => default VUndefined (props !! prop)
  | VStr s =>
      match string_index s prop ≫= (fun i => s !! i) with
      | Some c => VStr [c]
      | None => VUndefined
      end
  | _ => VUndefined
  end.

(** ** Tables *)

(** An object of the bundle that the program writes by [table[prop] =
    value], as far as such an assignment can tell: its own properties (data
    properties that can be written, on an object that can be extended) and
    its prototype. The prototype is [Object.prototype], whose [__proto__] is
    an accessor; or [null]; or an object of plain data, which itself inherits
    from [Object.prototype]. *)
Inductive Prototype : Type :=
| Object_prototype
| null_prototype
| object_prototype (props : gmap jsstring JSValue).

Record Table := {
  entries : gmap jsstring JSValue;
  prototype : Prototype;
}.

(** An object as [{ ... }] makes it. *)
Definition ordinary (props : gmap jsstring JSValue) : Table :=
  {| entries := props; prototype := Object_prototype |}.

(** The setter of [Object.prototype.__proto__] called on [table]: an object
    or [null] becomes the prototype of the table, any other value is
    ignored. *)
Definition set___proto__ (table : Table) (value : JSValue) : Table :=
  match value with
  | VObj props => {| entries := entries table; prototype := object_prototype props |}
  | VNull => {| entries := entries table; prototype := null_prototype |}
  | _ => table
  end.

(** Whether [table[prop] = value] finds the accessor [__proto__] of
    [Object.prototype] on its way up the prototype chain: the name is
    [__proto__], the table has no own property of that name and neither
    has the object between the table and [Object.prototype], if there is
    one. *)
Definition reaches___proto__ (table : Table) (prop : jsstring) : bool :=
  bool_decide (prop = lit "__proto__") &&
  match entries table !! prop with
  | Some _ => false
  | None =>
      match prototype table with
      | Object_prototype => true
      | null_prototype => false
      | object_prototype props =>
          match props !! prop with
          | Some _ => false
          | None => true
          end
      end
  end.

(** The assignment [table[prop] = value]: it makes or replaces the own
    property [prop], unless it reaches the accessor [__proto__], which makes
    no property. *)
Definition assign_entry (table : Table) (prop : jsstring) (value : JSValue) : Table :=
  if reaches___proto__ table prop then set___proto__ table value
  else {| entries := <[prop := value]> (entries table); prototype := prototype table |}.

(** ** Exceptions and results *)

Inductive Exception : Type :=
| Error (message : jsstring)
| TypeError
| Raised (payload : JSValue).

Inductive Result (A : Type) : Type :=
| Ok (a : A)
| Throw (e : Exception).
Arguments Ok {A} a.
Arguments Throw {A} e.

(** A computation over a mutable state [S] that may throw. *)
Definition M (S A : Type) : Type := S -> Result A * S.

Definition ret {S A} (a : A) : M S A := fun s => (Ok a, s).

Definition throw {S A} (e : Exception) : M S A := fun s => (Throw e, s).

Definition bind {S A B} (m : M S A) (k : A -> M S B) : M S B :=
  fun s =>
    match m s with
    | (Ok a, s') => k a s'
    | (Throw e, s') => (Throw e, s')
    end.

(** [try { body } finally { cleanup }]: the cleanup runs on both exits. When
    it returns, the completion of the body is kept; when it throws, its
    exception replaces the completion of the body. *)
Definition try_finally {S A} (body : M S A) (cleanup : M S unit) : M S A :=
  fun s =>
    let '(r, s1) := body s in
    match cleanup s1 with
    | (Ok _, s2) => (r, s2)
    | (Throw e, s2) => (Throw e, s2)
    end.

Definition get {S} : M S S := fun s => (Ok s, s).

Definition modify {S} (f : S -> S) : M S unit := fun s => (Ok tt, f s).

(** A result of a call that does not touch the state. *)
Definition liftR {S A} (r : Result A) : M S A := fun s => (r, s).

Notation "'let!' x ':=' m 'in' k" := (bind m (fun x => k))
  (at level 10, x name, m at level 100, k at level 200, only parsing).
Notation "'do!' m 'in' k" := (bind m (fun _ => k))
  (at level 10, m at level 100, k at level 200, only parsing).

(** ** Reading a file as UTF-8

    [readFileSync(path, 'utf8')] returns the bytes of the file decoded as
    Node decodes a buffer: a byte sequence that is not valid UTF-8 decodes to
    U+FFFD, one per maximal ill-formed part, and a code point above U+FFFF to
    a surrogate pair. *)

Definition REPLACEMENT : N := 0xFFFD%N.

Record Utf8State := {
  u_code_point : N;
  u_needed : nat;
  u_lower : N;
  u_upper : N;
}.

Definition utf8_idle : Utf8State :=
  {| u_code_point := 0; u_needed := 0; u_lower := 0x80; u_upper := 0xBF |}.

(** The UTF-16 code units of a code point. *)
Definition code_units (cp : N) : jsstring :=
  if (cp <? 0x10000)%N then [cp]
  else
    let v := (cp - 0x10000)%N in
    [(0xD800 + N.shiftr v 10)%N; (0xDC00 + N.land v 0x3FF)%N].

(** A byte read when no sequence is in progress. *)
Definition utf8_lead (b : N) : jsstring * Utf8State :=
  if (b <=? 0x7F)%N then ([b], utf8_idle)
  else if ((0xC2 <=? b) && (b <=? 0xDF))%N then
    ([], {| u_code_point := N.land b 0x1F; u_needed := 1;
            u_lower := 0x80; u_upper := 0xBF |})
  else if ((0xE0 <=? b) && (b <=? 0xEF))%N then
    ([], {| u_code_point := N.land b 0xF; u_needed := 2;
            u_lower := if (b =? 0xE0)%N then 0xA0 else 0x80;
            u_upper := if (b =? 0xED)%N then 0x9F else 0xBF |})
  else if ((0xF0 <=? b) && (b <=? 0xF4))%N then
    ([], {| u_code_point := N.land b 0x7; u_needed := 3;
            u_lower := if (b =? 0xF0)%N then 0x90 else 0x80;
            u_upper := if (b =? 0xF4)%N then 0x8F else 0xBF |})
  else ([REPLACEMENT], utf8_idle).

Definition utf8_step (st : Utf8State) (b : N) : jsstring * Utf8State :=
  match u_needed st with
  | O => utf8_lead b
  | S k =>
      if ((u_lower st <=? b) && (b <=? u_upper st))%N then
        let cp := N.lor (N.shiftl (u_code_point st) 6) (N.land b 0x3F) in
        match k with
        | O => (code_units cp, utf8_idle)
        | S _ => ([], {| u_code_point := cp; u_needed := k;
                         u_lower := 0x80; u_upper := 0xBF |})
        end
      else
        let '(out, st') := utf8_lead b in (REPLACEMENT :: out, st')
  end.

Fixpoint utf8_run (st : Utf8State) (bytes : list Byte.byte) : jsstring :=
  match bytes with
  | [] => match u_needed st with O => [] | S _ => [REPLACEMENT] end
  | b :: rest =>
      let '(out, st') := utf8_step st (Byte.to_N b) in
      out ++ utf8_run st' rest
  end.

Definition utf8_decode (bytes : list Byte.byte) : jsstring :=
  utf8_run utf8_idle bytes.

(** The states the decoder reaches: a continuation byte is at least 0x80. *)
Definition utf8_bounded (st : Utf8State) : Prop := (0x80 <= u_lower st)%N.

(** ** The process: the global [Object.create] and the files on disk *)

Inductive ObjectCreateFn : Type :=
| NativeCreate
| Interceptor (orig : ObjectCreateFn)
| Replaced (tag : N).

Record Process := {
  (** the value of the property [create] of the global [Object] *)
  Object_create : ObjectCreateFn;
  (** whether that property can be assigned: it cannot once it was made
      read-only ([Object.defineProperty], [Object.freeze]); a property with
      a setter of its own is not modelled *)
  Object_create_writable : bool;
  files : gmap jsstring (list Byte.byte);
}.

(** The value of the property replaced. *)
Definition set_Object_create (f : ObjectCreateFn) (p : Process) : Process :=
  {| Object_create := f; Object_create_writable := Object_create_writable p;
     files := files p |}.

(** The property made read-only, its value kept. *)
Definition pin_Object_create (p : Process) : Process :=
  {| Object_create := Object_create p; Object_create_writable := false;
     files := files p |}.

(** The assignment [Object.create = f]. The file is a module, hence strict
    code: on a read-only property the assignment throws a [TypeError] and
    changes nothing. *)
Definition assign_Object_create (f : ObjectCreateFn) : M Process unit :=
  fun p =>
    if Object_create_writable p then (Ok tt, set_Object_create f p)
    else (Throw TypeError, p).

Definition readFileSync_utf8 (path : jsstring) : M Process jsstring :=
  fun p =>
    match files p !! path with
    | Some bytes => (Ok (utf8_decode bytes), p)
    | None => (Throw (Error (lit "ENOENT: no such file or directory, open '" ++ path ++ lit "'")), p)
    end.

(** The byte-order mark U+FEFF. *)
Definition BOM : N := 0xFEFF%N.

(** Modelled from the spec: [stripBom] comes from the package [strip-bom]
    and is not part of these sources; it strips a leading byte-order mark,
    [string.charCodeAt(0) === 0xFEFF ? string.slice(1) : string]. *)
Definition stripBom (s : jsstring) : jsstring :=
  match s with
  | c :: rest => if (c =? BOM)%N then rest else s
  | [] => s
  end.

(** ** The extracted compiler *)

Section TemplateCompiler.

(** What the bundle keeps opaque: its AST plugins, its syntax trees and the
    module scoped state its functions share. *)
Context {Plugin AST BundleState : Type}.

Record Plugins := { ast : option (list Plugin) }.

Record PreprocessOptions := {
  po_contents : jsstring;
  po_moduleName : jsstring;
  po_plugins : option Plugins;
}.

Record PrecompileOptions := {
  pc_contents : jsstring;
  pc_moduleName : jsstring;
}.

Record EmberGlobal := {
  FEATURES : Table;
  ENV : Table;
}.

(** A function of the bundle reads the state of the bundle instance it
    belongs to: the module scoped state and the [_Ember] tables. *)
Definition Closure (T : Type) : Type := BundleState -> EmberGlobal -> T.

Record GlimmerSyntax := {
  gs_preprocess : Closure (jsstring -> PreprocessOptions -> Result AST);
  gs_print : AST -> jsstring;
  gs_defaultOptions : Closure (PreprocessOptions -> PreprocessOptions);
  gs_registerPlugin : jsstring -> Plugin -> BundleState -> BundleState;
  gs_precompile : Closure (jsstring -> PrecompileOptions -> Result jsstring);
  gs_Ember : EmberGlobal;
  gs_cacheKey : jsstring;
  (** the module scoped state [registerPlugin] writes *)
  gs_internal : BundleState;
}.

(** *** What executing the bundle yields *)

(** [obj['@glimmer/syntax']] *)
Record SyntaxModule := {
  sm_print : option (AST -> jsstring);
  sm_preprocess : Closure (jsstring -> PreprocessOptions -> Result AST);
}.

(** [obj['ember-template-compiler/lib/system/compile-options']] *)
Record CompileOptionsModule := {
  co_default : Closure (PreprocessOptions -> PreprocessOptions);
  co_registerPlugin : jsstring -> Plugin -> BundleState -> BundleState;
}.

(** An object that went through [Object.create]; a missing or falsy property
    is [None]. *)
Record Grabbed := {
  glimmer_syntax : option SyntaxModule;
  compile_options : option CompileOptionsModule;
}.

(** [module.exports] of the bundle. *)
Record Exports := {
  ex_precompile : Closure (jsstring -> PrecompileOptions -> Result jsstring);
  ex_Ember : EmberGlobal;
}.

Record BundleRun := {
  completion : Result Exports;
  (** the results of the calls of [Object.create], in call order *)
  constructed : list Grabbed;
  scoped_state : BundleState;
  process_after : Process;
}.

(** What the code calls and this repository does not define. *)
Record Host := {
  (** [createHash('md5').update(s).digest('hex')] *)
  md5_hex : jsstring -> jsstring;
  (** [json-stable-stringify] *)
  stringify : JSValue -> jsstring;
  (** [new Function(body)()]: the JavaScript engine on the text of a function
      body, in the process as it is *)
  new_Function_call : jsstring -> Process -> BundleRun;
}.

Variable host : Host.

Definition function_body (source : jsstring) : jsstring :=
  newline ++ lit "    let module = { exports: {} };" ++
  newline ++ lit "    " ++ source ++ lit ";" ++
  newline ++ lit "    return module.exports" ++
  newline ++ lit "    ".

Definition run_bundle (source : jsstring) : M Process BundleRun :=
  fun p =>
    let run := new_Function_call host (function_body source) p in
    (match completion run with
     | Ok _ => Ok run
     | Throw e => Throw e
     end, process_after run).

(** The loop over [grabbed] of [loadGlimmerSyntax]. *)
Fixpoint scan_grabbed (templateCompilerPath source : jsstring)
    (theExports : Exports) (state : BundleState) (grabbed : list Grabbed)
    : Result GlimmerSyntax :=
  match grabbed with
  | [] =>
      Throw (Error (lit "unable to find @glimmer/syntax methods in " ++ templateCompilerPath))
  | obj :: rest =>
      match glimmer_syntax obj ≫= (fun m => (fun pr => (m, pr)) <$> sm_print m) with
      | Some (m, pr) =>
          match compile_options obj with
          | Some co =>
              Ok {| gs_print := pr;
                    gs_preprocess := sm_preprocess m;
                    gs_defaultOptions := co_default co;
                    gs_registerPlugin := co_registerPlugin co;
                    gs_precompile := ex_precompile theExports;
                    gs_Ember := ex_Ember theExports;
                    gs_cacheKey := md5_hex host source;
                    gs_internal := state |}
          | None => Throw TypeError
          end
      | None => scan_grabbed templateCompilerPath source theExports state rest
      end
  end.

Definition loadGlimmerSyntax (templateCompilerPath : jsstring) : M Process GlimmerSyntax :=
  let! p0 := get in
  let orig := Object_create p0 in
  let! source := readFileSync_utf8 templateCompilerPath in
  do! assign_Object_create (Interceptor orig) in
  let! run := try_finally (run_bundle source) (assign_Object_create orig) in
  match completion run with
  | Ok theExports =>
      liftR (scan_grabbed templateCompilerPath source theExports
               (scoped_state run) (constructed run))
  | Throw e => throw e
  end.

(** ** Plugin registration and environment *)

Definition with_internal (syntax : GlimmerSyntax) (state : BundleState) : GlimmerSyntax :=
  {| gs_print := gs_print syntax;
     gs_preprocess := gs_preprocess syntax;
     gs_defaultOptions := gs_defaultOptions syntax;
     gs_registerPlugin := gs_registerPlugin syntax;
     gs_precompile := gs_precompile syntax;
     gs_Ember := gs_Ember syntax;
     gs_cacheKey := gs_cacheKey syntax;
     gs_internal := state |}.

(** [syntax.registerPlugin(type, plugin)] *)
Definition call_registerPlugin (syntax : GlimmerSyntax) (type : jsstring) (plugin : Plugin)
    : GlimmerSyntax :=
  with_internal syntax (gs_registerPlugin syntax type plugin (gs_internal syntax)).

(** [for (let i = 0, l = plugins.ast.length; i < l; i++)]: [remaining] is
    [l - i]. *)
Fixpoint registerPlugins_loop (plugins_ast : list Plugin) (remaining i : nat)
    (syntax : GlimmerSyntax) (userPluginsCount : nat) : GlimmerSyntax * nat :=
  match remaining with
  | O => (syntax, userPluginsCount)
  | S remaining' =>
      match plugins_ast !! i with
      | Some plugin =>
          registerPlugins_loop plugins_ast remaining' (S i)
            (call_registerPlugin syntax (lit "ast") plugin) (S userPluginsCount)
      | None => (syntax, userPluginsCount)
      end
  end.

Definition registerPlugins (syntax : GlimmerSyntax) (plugins : Plugins) : GlimmerSyntax * nat :=
  match ast plugins with
  | Some plugins_ast =>
      registerPlugins_loop plugins_ast (length plugins_ast) 0 syntax 0
  | None => (syntax, 0)
  end.

Definition set_Ember (syntax : GlimmerSyntax) (e : EmberGlobal) : GlimmerSyntax :=
  {| gs_print := gs_print syntax;
     gs_preprocess := gs_preprocess syntax;
     gs_defaultOptions := gs_defaultOptions syntax;
     gs_registerPlugin := gs_registerPlugin syntax;
     gs_precompile := gs_precompile syntax;
     gs_Ember := e;
     gs_cacheKey := gs_cacheKey syntax;
     gs_internal := gs_internal syntax |}.

(** [syntax._Ember.FEATURES[prop] = EmberENV.FEATURES[prop]] *)
Definition copy_feature (features : JSValue) (e : EmberGlobal) (prop : jsstring) : EmberGlobal :=
  {| FEATURES := assign_entry (FEATURES e) prop (get_prop features prop); ENV := ENV e |}.

(** [if (prop === 'FEATURES') { return; } syntax._Ember.ENV[prop] = EmberENV[prop]] *)
Definition copy_env (EmberENV : JSValue) (e : EmberGlobal) (prop : jsstring) : EmberGlobal :=
  if decide (prop = lit "FEATURES") then e
  else {| FEATURES := FEATURES e; ENV := assign_entry (ENV e) prop (get_prop EmberENV prop) |}.

Definition initializeEmberENV (syntax : GlimmerSyntax) (EmberENV : JSValue) : GlimmerSyntax :=
  if negb (truthy EmberENV) then syntax
  else
    let features := get_prop EmberENV (lit "FEATURES") in
    let e1 :=
      if truthy features
      then foldl (copy_feature features) (gs_Ember syntax) (Object_keys features)
      else gs_Ember syntax in
    let e2 :=
      if truthy EmberENV
      then foldl (copy_env EmberENV) e1 (Object_keys EmberENV)
      else e1 in
    set_Ember syntax e2.

(** ** The [TemplateCompiler] class *)

Record ResolvedDep := {
  runtimeName : jsstring;
  path : jsstring;
}.

(** The resolver of the host. [astTransformer] is the plugin that
    [resolver.astTransformer(this)] returns. *)
Record Resolver := {
  astTransformer : Plugin;
  dependenciesOf : jsstring -> Result (list ResolvedDep);
}.

Record SetupCompilerParams := {
  compilerPath : jsstring;
  resolver : option Resolver;
  EmberENV : JSValue;
  plugins : Plugins;
}.

(** What [setup()] returns and [@Memoize()] keeps. *)
Record SetupResult := {
  sr_syntax : GlimmerSyntax;
  sr_cacheKey : jsstring;
}.

Record TemplateCompiler := {
  params : SetupCompilerParams;
  userPluginsCount : nat;
  isParallelSafe : bool;
  memoized_setup : option SetupResult;
}.

(** [new TemplateCompiler(params)] *)
Definition new_TemplateCompiler (p : SetupCompilerParams) : TemplateCompiler :=
  {| params := p; userPluginsCount := 0; isParallelSafe := false; memoized_setup := None |}.

(** An assignment [templateCompiler.isParallelSafe = b] from outside the class. *)
Definition assign_isParallelSafe (b : bool) (tc : TemplateCompiler) : TemplateCompiler :=
  {| params := params tc; userPluginsCount := userPluginsCount tc;
     isParallelSafe := b; memoized_setup := memoized_setup tc |}.

(** What a method can touch: the process and the instance. *)
Record World := {
  process : Process;
  this : TemplateCompiler;
}.

Definition in_process {A} (m : M Process A) : M World A :=
  fun w => let '(r, p) := m (process w) in (r, {| process := p; this := this w |}).

Definition update_this (f : TemplateCompiler -> TemplateCompiler) : M World unit :=
  modify (fun w => {| process := process w; this := f (this w) |}).

Definition add_userPluginsCount (n : nat) (tc : TemplateCompiler) : TemplateCompiler :=
  {| params := params tc; userPluginsCount := userPluginsCount tc + n;
     isParallelSafe := isParallelSafe tc; memoized_setup := memoized_setup tc |}.

Definition memoize (r : SetupResult) (tc : TemplateCompiler) : TemplateCompiler :=
  {| params := params tc; userPluginsCount := userPluginsCount tc;
     isParallelSafe := isParallelSafe tc; memoized_setup := Some r |}.

(** The body of [setup()], run when nothing is memoized yet. As the
    interfaces of the source type them, [resolver.astTransformer(this)] and
    [syntax.registerPlugin(...)] are calls that return, and the exports of
    the bundle have their [_Ember] tables: a setup in which one of these
    throws is outside this definition, and the only statement of [setup()]
    that throws here is [loadGlimmerSyntax]. *)
Definition setup_body : M World SetupResult :=
  let! w := get in
  let p := params (this w) in
  let! syntax := in_process (loadGlimmerSyntax (compilerPath p)) in
  let '(syntax, registered) := registerPlugins syntax (plugins p) in
  do! update_this (add_userPluginsCount registered) in
  let! syntax :=
    match resolver p with
    | Some r =>
        let syntax := call_registerPlugin syntax (lit "ast") (astTransformer r) in
        do! update_this (add_userPluginsCount 1) in
        ret syntax
    | None => ret syntax
    end in
  let syntax := initializeEmberENV syntax (EmberENV p) in
  let cacheKey :=
    md5_hex host (stringify host (VObj {[ lit "syntax" := VStr (gs_cacheKey syntax) ]})) in
  ret {| sr_syntax := syntax; sr_cacheKey := cacheKey |}.

(** [@Memoize() private setup()]: a value is kept once the body has returned;
    a body that throws keeps nothing. *)
Definition setup : M World SetupResult :=
  let! w := get in
  match memoized_setup (this w) with
  | Some r => ret r
  | None =>
      let! r := setup_body in
      do! update_this (memoize r) in
      ret r
  end.

(** [private get syntax()] *)
Definition syntax : M World GlimmerSyntax :=
  let! r := setup in ret (sr_syntax r).

(** [get cacheKey()] *)
Definition cacheKey : M World jsstring :=
  let! r := setup in ret (sr_cacheKey r).

Record Precompiled := {
  compiled : jsstring;
  dependencies : list ResolvedDep;
}.

Definition precompile (moduleName contents : jsstring) : M World Precompiled :=
  let! s := syntax in
  let! compiled :=
    liftR (gs_precompile s (gs_internal s) (gs_Ember s) (stripBom contents)
             {| pc_contents := contents; pc_moduleName := moduleName |}) in
  let! w := get in
  let! dependencies :=
    match resolver (params (this w)) with
    | Some r => liftR (dependenciesOf r moduleName)
    | None => ret []
    end in
  ret {| compiled := compiled; dependencies := dependencies |}.

(** The two lines pushed for one dependency. *)
Definition import_line (counter : nat) (d : ResolvedDep) : jsstring :=
  lit "import a" ++ number_toString counter ++ lit " from " ++
  dquote ++ path d ++ dquote ++ lit ";".

Definition define_line (counter : nat) (d : ResolvedDep) : jsstring :=
  lit "window.define('" ++ runtimeName d ++ lit "', function(){ return a" ++
  number_toString counter ++ lit "});".

Definition export_line (compiled : jsstring) : jsstring :=
  lit "export default Ember.HTMLBars.template(" ++ compiled ++ lit ");".

(** One turn of the [for ... of dependencies] loop on [(lines, counter)]. *)
Definition compile_push (acc : list jsstring * nat) (d : ResolvedDep) : list jsstring * nat :=
  let '(lines, counter) := acc in
  (lines ++ [import_line counter d; define_line counter d], S counter).

Definition compile_lines (r : Precompiled) : list jsstring :=
  let '(lines, _) := foldl compile_push ([], 0) (dependencies r) in
  lines ++ [export_line (compiled r)].

Definition compile (moduleName contents : jsstring) : M World jsstring :=
  let! r := precompile moduleName contents in
  ret (join newline (compile_lines r)).

(** [opts.plugins.ast = opts.plugins.ast.slice(0, n)] under the guard
    [opts.plugins && opts.plugins.ast]. *)
Definition slice_plugins (n : nat) (opts : PreprocessOptions) : PreprocessOptions :=
  match po_plugins opts with
  | Some pl =>
      match ast pl with
      | Some l =>
          {| po_contents := po_contents opts; po_moduleName := po_moduleName opts;
             po_plugins := Some {| ast := Some (take n l) |} |}
      | None => opts
      end
  | None => opts
  end.

Definition applyTransforms (moduleName contents : jsstring) : M World jsstring :=
  let! s := syntax in
  let opts :=
    gs_defaultOptions s (gs_internal s) (gs_Ember s)
      {| po_contents := contents; po_moduleName := moduleName; po_plugins := None |} in
  let! w := get in
  let opts := slice_plugins (userPluginsCount (this w)) opts in
  let! s := syntax in
  let! tree := liftR (gs_preprocess s (gs_internal s) (gs_Ember s) contents opts) in
  let! s := syntax in
  ret (gs_print s tree).

Definition parse (moduleName contents : jsstring) : M World AST :=
  let opts :=
    {| po_contents := contents; po_moduleName := moduleName;
       po_plugins := Some {| ast := None |} |} in
  let! s := syntax in
  liftR (gs_preprocess s (gs_internal s) (gs_Ember s) contents opts).

(** ** The broccoli filter [TemplateCompileTree] *)

Inductive Stage : Type := Stage1 | Stage3.

Definition stage_number (stage : Stage) : nat :=
  match stage with Stage1 => 1 | Stage3 => 3 end.

(** The options the constructor hands to [super]. *)
Record FilterOptions := {
  name : jsstring;
  persist : bool;
  extensions : list jsstring;
  targetExtension : option jsstring;
}.

Definition TemplateCompileTree_options (stage : Stage) : FilterOptions :=
  {| name := lit "embroider-template-compile-stage" ++ number_toString (stage_number stage);
     persist := true;
     extensions := [lit "hbs"; lit "handlebars"];
     targetExtension := match stage with Stage3 => Some (lit "js") | Stage1 => None end |}.

Definition processString (stage : Stage) (source relativePath : jsstring) : M World jsstring :=
  match stage with
  | Stage1 => applyTransforms relativePath source
  | Stage3 => compile relativePath source
  end.

(** *** Calls from outside, for the invariants of an instance *)

Inductive Call : Type :=
| CallCacheKey
| CallPrecompile (moduleName contents : jsstring)
| CallCompile (moduleName contents : jsstring)
| CallApplyTransforms (moduleName contents : jsstring)
| CallParse (moduleName contents : jsstring).

(** The world a call leaves, whether it returns or throws. *)
Definition run_call (w : World) (c : Call) : World :=
  match c with
  | CallCacheKey => snd (cacheKey w)
  | CallPrecompile m s => snd (precompile m s w)
  | CallCompile m s => snd (compile m s w)
  | CallApplyTransforms m s => snd (applyTransforms m s w)
  | CallParse m s => snd (parse m s w)
  end.

Definition run_calls (w : World) (calls : list Call) : World :=
  foldl run_call w calls.

End TemplateCompiler.

(** Modelled from the spec: the base class [Filter] that
    [TemplateCompileTree] extends comes from the package
    [broccoli-persistent-filter] and is not part of these sources. From the
    options of the constructor it decides the output path of an input file: a
    file is processed only when its path ends in a dot and one of
    [extensions]; the output keeps the path, with that extension replaced by
    [targetExtension] when one is given. [None] means the file is not
    processed. *)
Fixpoint dest_for_extensions (targetExtension : option jsstring)
    (extensions : list jsstring) (relativePath : jsstring) : option jsstring :=
  match extensions with
  | [] => None
  | ext :: rest =>
      if decide (slice_last (length ext + 1) relativePath = lit "." ++ ext) then
        Some match targetExtension with
             | Some target => slice_but_last (length ext) relativePath ++ target
             | None => relativePath
             end
      else dest_for_extensions targetExtension rest relativePath
  end.

Definition getDestFilePath (options : FilterOptions) (relativePath : jsstring) : option jsstring :=
  dest_for_extensions (targetExtension options) (extensions options) relativePath.

(** ** The template of [PortableTemplateCompiler]

    [here_escaped] is what [{{{js-string-escape here}}}] renders and
    [portable_json] what [{{{json-stringify portable 2}}}] renders; both
    helpers belong to [./js-handlebars]. [{{ isParallelSafe }}] renders a
    boolean as [true] or [false]. *)

Definition render_boolean (b : bool) : jsstring :=
  if b then lit "true" else lit "false".

Definition PortableTemplateCompiler_template
    (here_escaped portable_json : jsstring) (isParallelSafe : bool) : jsstring :=
  newline ++ lit "  " ++ dquote ++ lit "use strict" ++ dquote ++ lit ";" ++
  newline ++ lit "  const { PortablePluginConfig } = require('" ++ here_escaped ++ lit "');" ++
  newline ++ lit "  const TemplateCompiler = require('@embroider/core/src/template-compiler').default;" ++
  newline ++ lit "  const templateCompiler = new TemplateCompiler(PortablePluginConfig.load(" ++
    portable_json ++ lit "));" ++
  newline ++ lit "  templateCompiler.isParallelSafe = " ++ render_boolean isParallelSafe ++ lit ";" ++
  newline ++ lit "  module.exports = templateCompiler;" ++
  newline ++ lit "  ".

(** What the fragment builds when it runs: lines 4 and 5 of the template, on
    the parameters that [PortablePluginConfig.load] returns. *)
Definition reconstructed {Plugin AST BundleState : Type}
    (loaded : @SetupCompilerParams Plugin) (isParallelSafe : bool)
    : @TemplateCompiler Plugin AST BundleState :=
  assign_isParallelSafe isParallelSafe (new_TemplateCompiler loaded).

(** ** The cache key of the filter and the life of an instance *)

Section Callers.

Context {Plugin AST BundleState : Type}.
Variable host : @Host Plugin AST BundleState.

(** [super.cacheKeyProcessString(source, relativePath)] of the persistent
    filter. *)
Variable super_cacheKeyProcessString : jsstring -> jsstring -> jsstring.

(** [TemplateCompileTree.cacheKeyProcessString] *)
Definition cacheKeyProcessString (stage : Stage) (source relativePath : jsstring)
    : M (@World Plugin AST BundleState) jsstring :=
  let! key := cacheKey host in
  ret (number_toString (stage_number stage) ++ lit "-" ++ key ++
       super_cacheKeyProcessString source relativePath).

(** How a call ends, its value left out. *)
Definition completion_of {A} (r : Result A) : Result unit :=
  match r with
  | Ok _ => Ok tt
  | Throw e => Throw e
  end.

Definition call_completion (w : @World Plugin AST BundleState) (c : Call) : Result unit :=
  match c with
  | CallCacheKey => completion_of (fst (cacheKey host w))
  | CallPrecompile m s => completion_of (fst (precompile host m s w))
  | CallCompile m s => completion_of (fst (compile host m s w))
  | CallApplyTransforms m s => completion_of (fst (applyTransforms host m s w))
  | CallParse m s => completion_of (fst (parse host m s w))
  end.

(** What happens to an instance over its life: calls of its methods, and
    between them anything else in the process (files written, globals set). *)
Inductive Event : Type :=
| MethodCall (c : Call)
| ProcessChange (p : Process).

Definition run_event (w : @World Plugin AST BundleState) (ev : Event)
    : @World Plugin AST BundleState :=
  match ev with
  | MethodCall c => run_call host w c
  | ProcessChange p => {| process := p; this := this w |}
  end.

Definition run_events (w : @World Plugin AST BundleState) (events : list Event)
    : @World Plugin AST BundleState :=
  foldl run_event w events.

End Callers.

(** ** [isInlinePrecompilePlugin]

    The regular expression of [matchesSourceFile] is made of literal
    characters, one alternation and the end anchor. *)

Inductive RegExp : Type :=
| RChars (chars : jsstring)
| RSeq (r1 r2 : RegExp)
| RAlt (r1 r2 : RegExp).

(** [s] without the prefix [chars], when it starts with it. *)
Fixpoint strip_prefix (chars s : jsstring) : option jsstring :=
  match chars, s with
  | [], _ => Some s
  | c :: chars', d :: s' => if (c =? d)%N then strip_prefix chars' s' else None
  | _ :: _, [] => None
  end.

(** Backtracking match of [r] at the start of [s]; [k] decides on what is
    left. *)
Fixpoint re_match (r : RegExp) (s : jsstring) (k : jsstring -> bool) : bool :=
  match r with
  | RChars chars =>
      match strip_prefix chars s with
      | Some rest => k rest
      | None => false
      end
  | RSeq r1 r2 => re_match r1 s (fun rest => re_match r2 rest k)
  | RAlt r1 r2 => re_match r1 s k || re_match r2 s k
  end.

(** [/r$/.test(s)]: a match of [r] that starts anywhere and ends where [s]
    ends. *)
Definition test_to_end (r : RegExp) (s : jsstring) : bool :=
  existsb (fun i => re_match r (drop i s) (fun rest => bool_decide (rest = [])))
          (seq 0 (S (length s))).

(** [/babel-plugin-htmlbars-inline-precompile\/(index|lib\/require-from-worker)\.js$/] *)
Definition sourceFile_regexp : RegExp :=
  RSeq (RChars (lit "babel-plugin-htmlbars-inline-precompile/"))
    (RSeq (RAlt (RChars (lit "index")) (RChars (lit "lib/require-from-worker")))
       (RChars (lit ".js"))).

Definition matchesSourceFile (filename : jsstring) : bool :=
  test_to_end sourceFile_regexp filename.

(** A babel [PluginItem] as [isInlinePrecompilePlugin] looks at it: a string,
    an object or function with its [_parallelBabel] property (when truthy, the
    string under [requireFile] or [None] for undefined), an array of items, or
    a value without properties. *)
#[warnings="-register-all"]
Inductive PluginItem : Type :=
| ItemString (s : jsstring)
| ItemObject (parallelBabel : option (option jsstring))
| ItemArray (elements : list PluginItem)
| ItemPrimitive.

Definition hasProperties (item : PluginItem) : bool :=
  match item with
  | ItemObject _ | ItemArray _ => true
  | ItemString _ | ItemPrimitive => false
  end.

(** [item._parallelBabel], [None] when it is not truthy. *)
Definition parallelBabel_of (item : PluginItem) : option (option jsstring) :=
  match item with
  | ItemObject pb => pb
  | _ => None
  end.

(** [RegExp.prototype.test] turns its argument into a string. *)
Definition requireFile_text (requireFile : option jsstring) : jsstring :=
  default (lit "undefined") requireFile.

Definition isInlinePrecompilePlugin (item : PluginItem) : bool :=
  match item with
  | ItemString s => matchesSourceFile s
  | _ =>
      match (if hasProperties item then parallelBabel_of item else None) with
      | Some pb => matchesSourceFile (requireFile_text pb)
      | None =>
          match item with
          | ItemArray (first :: _) =>
              match first with
              | ItemString s => matchesSourceFile s
              | _ =>
                  match (if hasProperties first then parallelBabel_of first else None) with
                  | Some pb => matchesSourceFile (requireFile_text pb)
                  | None => false
                  end
              end
          | _ => false
          end
      end
  end.

(** ** [Snitch]

    [allowedPaths.test] is a predicate on file names (a regular expression
    without the global or sticky flag). The callback [foundBadPaths] and
    [super.build()] belong to the caller and to the funnel: a build is given
    how each of them completes when it is called, and the state records the
    calls. *)

Record Snitch := {
  allowedPaths : jsstring -> bool;
  mustCheck : bool;
  (** the arguments of the calls of [foundBadPaths], in call order *)
  reported : list (list jsstring);
  (** the number of calls of [super.build()] *)
  funnel_builds : nat;
}.

(** [new Snitch(inputTree, { allowedPaths, foundBadPaths }, funnelOptions)] *)
Definition new_Snitch (allowed : jsstring -> bool) : Snitch :=
  {| allowedPaths := allowed; mustCheck := true; reported := []; funnel_builds := 0 |}.

Record Build := {
  (** [walkSync(this.inputPaths[0], { directories: false })] *)
  walk : list jsstring;
  foundBadPaths_completion : Result unit;
  funnel_completion : Result unit;
}.

(** The pushes of [.map(filename => ...)] on [badPaths]. *)
Definition push_bad (allowed : jsstring -> bool) (badPaths : list jsstring)
    (filename : jsstring) : list jsstring :=
  if negb (allowed filename) then badPaths ++ [filename] else badPaths.

Definition call_foundBadPaths (b : Build) (badPaths : list jsstring) : M Snitch unit :=
  fun st =>
    (foundBadPaths_completion b,
     {| allowedPaths := allowedPaths st; mustCheck := mustCheck st;
        reported := reported st ++ [badPaths]; funnel_builds := funnel_builds st |}).

Definition set_mustCheck (v : bool) (st : Snitch) : Snitch :=
  {| allowedPaths := allowedPaths st; mustCheck := v;
     reported := reported st; funnel_builds := funnel_builds st |}.

Definition call_super_build (b : Build) : M Snitch unit :=
  fun st =>
    (funnel_completion b,
     {| allowedPaths := allowedPaths st; mustCheck := mustCheck st;
        reported := reported st; funnel_builds := S (funnel_builds st) |}).

(** [Snitch.build()] *)
Definition Snitch_build (b : Build) : M Snitch unit :=
  let! st := get in
  do! (if mustCheck st then
         let badPaths := foldl (push_bad (allowedPaths st)) [] (walk b) in
         do! (if (0 <? length badPaths)%nat
              then call_foundBadPaths b badPaths
              else ret tt) in
         modify (set_mustCheck false)
       else ret tt) in
  call_super_build b.

(** The snitch after a sequence of builds, each returning or throwing. *)
Definition Snitch_builds (st : Snitch) (builds : list Build) : Snitch :=
  foldl (fun st' b => snd (Snitch_build b st')) st builds.

(** ** A small bundle and its host, for the examples

    A plugin is named by a string, a syntax tree records the text and the
    plugins that ran over it, and the module scoped state is the list of the
    [registerPlugin] calls received. *)

Definition DemoPlugin : Type := jsstring.
Definition DemoAST : Type := jsstring * list DemoPlugin.
Definition DemoState : Type := list (jsstring * DemoPlugin).

Definition demo_builtins : list DemoPlugin :=
  [lit "builtin-1"; lit "builtin-2"; lit "builtin-3"].

(** The options builder puts the registered plugins first and appends the
    built-in ones. *)
Definition demo_defaultOptions
    : @Closure DemoState (@PreprocessOptions DemoPlugin -> @PreprocessOptions DemoPlugin) :=
  fun registered _ opts =>
    {| po_contents := po_contents opts; po_moduleName := po_moduleName opts;
       po_plugins := Some {| ast := Some (registered.*2 ++ demo_builtins) |} |}.

Definition demo_preprocess
    : @Closure DemoState (jsstring -> @PreprocessOptions DemoPlugin -> Result DemoAST) :=
  fun _ _ html opts => Ok (html, default [] (po_plugins opts ≫= ast)).

Definition demo_print (tree : DemoAST) : jsstring :=
  tree.1 ++ lit " <!-- " ++ join (lit ",") tree.2 ++ lit " -->".

Definition demo_precompile
    : @Closure DemoState (jsstring -> PrecompileOptions -> Result jsstring) :=
  fun _ _ text _ => Ok (dquote ++ text ++ dquote).

Definition demo_registerPlugin (type : jsstring) (plugin : DemoPlugin) (st : DemoState)
    : DemoState :=
  st ++ [(type, plugin)].

Definition demo_modules : @Grabbed DemoPlugin DemoAST DemoState :=
  {| glimmer_syntax :=
       Some {| sm_print := Some demo_print; sm_preprocess := demo_preprocess |};
     compile_options :=
       Some {| co_default := demo_defaultOptions;
               co_registerPlugin := demo_registerPlugin |} |}.

Definition demo_exports : @Exports DemoState :=
  {| ex_precompile := demo_precompile;
     ex_Ember := {| FEATURES := ordinary ∅; ENV := ordinary ∅ |} |}.

(** Every text runs to the same modules; one unrelated object is constructed
    before them. *)
Definition demo_engine (body : jsstring) (p : Process)
    : @BundleRun DemoPlugin DemoAST DemoState :=
  {| completion := Ok demo_exports;
     constructed := [ {| glimmer_syntax := None; compile_options := None |}; demo_modules ];
     scoped_state := [];
     process_after := p |}.

Definition demo_stringify (v : JSValue) : jsstring :=
  match v with
  | VObj props =>
      match props !! lit "syntax" with
      | Some (VStr k) =>
          lit "{" ++ dquote ++ lit "syntax" ++ dquote ++ lit ":" ++ dquote ++ k ++ dquote ++ lit "}"
      | _ => lit "{}"
      end
  | _ => lit "null"
  end.

(** The digest of this host is the identity: it never maps two texts to one
    digest. *)
Definition demo_host : @Host DemoPlugin DemoAST DemoState :=
  {| md5_hex := fun s => s;
     stringify := demo_stringify;
     new_Function_call := demo_engine |}.

(** An engine whose bundle replaces [Object.create] and then throws. *)
Definition hostile_engine (body : jsstring) (p : Process)
    : @BundleRun DemoPlugin DemoAST DemoState :=
  {| completion := Throw (Raised (VStr (lit "boom")));
     constructed := [];
     scoped_state := [];
     process_after := set_Object_create (Replaced 7) p |}.

Definition hostile_host : @Host DemoPlugin DemoAST DemoState :=
  {| md5_hex := fun s => s;
     stringify := demo_stringify;
     new_Function_call := hostile_engine |}.

Definition path_a : jsstring := lit "/a/ember-template-compiler.js".
Definition path_b : jsstring := lit "/b/ember-template-compiler.js".
Definition path_c : jsstring := lit "/c/ember-template-compiler.js".

(** Two bundles of three bytes, a comment opener and one byte that no UTF-8
    text contains. They differ in the last byte. *)
Definition bundle_a : list Byte.byte := [Byte.x2f; Byte.x2f; Byte.xff].
Definition bundle_b : list Byte.byte := [Byte.x2f; Byte.x2f; Byte.xfe].

(** The file at [path_c] is a copy of the file at [path_a]. *)
Definition demo_process : Process :=
  {| Object_create := NativeCreate;
     Object_create_writable := true;
     files := {[ path_a := bundle_a; path_b := bundle_b; path_c := bundle_a ]} |}.

(** What [loadGlimmerSyntax] extracts from the bundle at [path_a]. *)
Definition demo_syntax : @GlimmerSyntax DemoPlugin DemoAST DemoState :=
  {| gs_preprocess := demo_preprocess;
     gs_print := demo_print;
     gs_defaultOptions := demo_defaultOptions;
     gs_registerPlugin := demo_registerPlugin;
     gs_precompile := demo_precompile;
     gs_Ember := {| FEATURES := ordinary ∅; ENV := ordinary ∅ |};
     gs_cacheKey := utf8_decode bundle_a;
     gs_internal := [] |}.

(** The [cacheKey] of a core on this host for a bundle whose text is a
    comment opener followed by U+FFFD. *)
Definition demo_key : jsstring :=
  lit "{" ++ dquote ++ lit "syntax" ++ dquote ++ lit ":" ++
  dquote ++ lit "//" ++ [REPLACEMENT] ++ dquote ++ lit "}".

(** A configuration with two feature flags and two other keys. *)
Definition demo_features : gmap jsstring JSValue :=
  {[ lit "flag-a" := VBool true; lit "flag-b" := VBool false ]}.

Definition demo_config : gmap jsstring JSValue :=
  {[ lit "FEATURES" := VObj demo_features;
     lit "EXTEND_PROTOTYPES" := VBool false;
     lit "LOG_VERSION" := VNum 1 ]}.

Definition demo_EmberENV : JSValue := VObj demo_config.

Definition demo_params (compilerPath : jsstring) (plugins_ast : option (list DemoPlugin))
    (resolver : option (@Resolver DemoPlugin)) (EmberENV : JSValue)
    : @SetupCompilerParams DemoPlugin :=
  {| compilerPath := compilerPath; resolver := resolver; EmberENV := EmberENV;
     plugins := {| ast := plugins_ast |} |}.

Definition demo_resolver : @Resolver DemoPlugin :=
  {| astTransformer := lit "resolver-plugin";
     dependenciesOf := fun _ =>
       Ok [ {| runtimeName := lit "a"; path := lit "./a" |};
            {| runtimeName := lit "b"; path := lit "./b" |} ] |}.

Definition demo_world (p : @SetupCompilerParams DemoPlugin)
    : @World DemoPlugin DemoAST DemoState :=
  {| process := demo_process; this := new_TemplateCompiler p |}.

(** No resolver, no plugins, no configuration. *)
Definition plain_world : @World DemoPlugin DemoAST DemoState :=
  demo_world (demo_params path_a None None VUndefined).

(** Two plugins of the host, no resolver. *)
Definition two_plugin_world : @World DemoPlugin DemoAST DemoState :=
  demo_world (demo_params path_a (Some [lit "p0"; lit "p1"]) None VUndefined).

(** One plugin of the host and a resolver. *)
Definition resolver_world : @World DemoPlugin DemoAST DemoState :=
  demo_world (demo_params path_a (Some [lit "p0"]) (Some demo_resolver) VUndefined).

(** An engine whose bundle runs to its end and constructs nothing. *)
Definition blank_engine (body : jsstring) (p : Process)
    : @BundleRun DemoPlugin DemoAST DemoState :=
  {| completion := Ok demo_exports;
     constructed := [];
     scoped_state := [];
     process_after := p |}.

Definition blank_host : @Host DemoPlugin DemoAST DemoState :=
  {| md5_hex := fun s => s;
     stringify := demo_stringify;
     new_Function_call := blank_engine |}.

(** A process in which the bundle files are gone. *)
Definition emptied_process : Process :=
  {| Object_create := NativeCreate; Object_create_writable := true; files := ∅ |}.

(** An engine whose bundle makes [Object.create] read-only, as
    [Object.freeze(Object)] does, and otherwise runs like the small bundle. *)
Definition pinning_engine (body : jsstring) (p : Process)
    : @BundleRun DemoPlugin DemoAST DemoState :=
  {| completion := Ok demo_exports;
     constructed := [ {| glimmer_syntax := None; compile_options := None |}; demo_modules ];
     scoped_state := [];
     process_after := pin_Object_create p |}.

Definition pinning_host : @Host DemoPlugin DemoAST DemoState :=
  {| md5_hex := fun s => s;
     stringify := demo_stringify;
     new_Function_call := pinning_engine |}.

(** A configuration with an own key [__proto__], as [JSON.parse] makes one. *)
Definition proto_config : gmap jsstring JSValue :=
  {[ lit "__proto__" := VNum 1; lit "LOG_VERSION" := VNum 1 ]}.

(** The cache key of the underlying filter, for the examples: the source
    between brackets. *)
Definition demo_super_cacheKey (source relativePath : jsstring) : jsstring :=
  lit "[" ++ source ++ lit "]".

(** A snitch that allows the files under [my-addon/]. *)
Definition demo_allowed (filename : jsstring) : bool :=
  bool_decide (take 9 filename = lit "my-addon/").

(** A first tree with two files outside [my-addon/], and a later tree with
    another one. *)
Definition demo_first_walk : list jsstring :=
  [lit "my-addon/index.js"; lit "other/a.js"; lit "my-addon/b.js"; lit "c.js"].

Definition demo_later_walk : list jsstring :=
  [lit "my-addon/index.js"; lit "late.js"].

(** The lines [compile] is to push for the dependencies, from a given value of
    the counter: the closed form of the loop. *)
Fixpoint dependency_lines (counter : nat) (deps : list ResolvedDep) : list jsstring :=
  match deps with
  | [] => []
  | d :: rest =>
      import_line counter d :: define_line counter d :: dependency_lines (S counter) rest
  end.

(** The user-installed plugins of a configuration: those of the host, in
    their order, then the one of the resolver when there is a resolver. *)
Definition user_plugins {Plugin : Type} (p : @SetupCompilerParams Plugin) : list Plugin :=
  default [] (ast (plugins p)) ++
  match resolver p with
  | Some r => [astTransformer r]
  | None => []
  end.

(** A run of assignments [table[prop] = value prop] over a list of
    property names. *)
Definition assign_all (value : jsstring -> JSValue) (table : Table) (props : list jsstring)
    : Table :=
  foldl (fun t prop => assign_entry t prop (value prop)) table props.

(** The values on which the setter of [__proto__] acts. *)
Definition replaces_prototype (value : JSValue) : bool :=
  match value with
  | VObj _ | VNull => true
  | _ => false
  end.

(** * Decimal numerals *)

Definition is_digit (c : N) : Prop := (48 <= c <= 57)%N.

Lemma uint_units_digits d : Forall is_digit (uint_units d).
Proof.
  induction d; simpl; [done|..]; (apply Forall_cons; split; [unfold is_digit; lia|done]).
Qed.

Lemma uint_units_inj d : forall d', uint_units d = uint_units d' -> d = d'.
Proof.
  induction d; intros d' H; destruct d'; simpl in H; try done;
    injection H as H; f_equal; by apply IHd.
Qed.

Lemma number_toString_inj i j : number_toString i = number_toString j -> i = j.
Proof.
  unfold number_toString. intros H%uint_units_inj.
  by rewrite <- (DecimalNat.Unsigned.of_to i), <- (DecimalNat.Unsigned.of_to j), H.
Qed.

(** * Assignments to a table *)

Lemma Table_eq (a b : Table) :
  entries a = entries b -> prototype a = prototype b -> a = b.
Proof. destruct a, b; simpl; by intros -> ->. Qed.

Lemma assign_entry_other table prop value :
  prop <> lit "__proto__" ->
  assign_entry table prop value
  = {| entries := <[prop := value]> (entries table); prototype := prototype table |}.
Proof.
  intros Hne. unfold assign_entry, reaches___proto__. by rewrite bool_decide_false by done.
Qed.

Lemma assign_entry_other_lookup table value k :
  k <> lit "__proto__" ->
  entries (assign_entry table (lit "__proto__") value) !! k = entries table !! k.
Proof.
  intros Hne. unfold assign_entry. destruct (reaches___proto__ _ _).
  - by destruct value.
  - cbn [entries]. by apply lookup_insert_ne.
Qed.

Lemma reaches___proto___ext (a b : Table) prop :
  entries a !! prop = entries b !! prop -> prototype a = prototype b ->
  reaches___proto__ a prop = reaches___proto__ b prop.
Proof. unfold reaches___proto__. by intros -> ->. Qed.

Lemma set___proto___entries table value : entries (set___proto__ table value) = entries table.
Proof. by destruct value. Qed.

(** An assignment under another name first does not change what the
    assignment under [__proto__] does. *)
Lemma assign_entry___proto___after table prop value w :
  prop <> lit "__proto__" ->
  prototype (assign_entry (assign_entry table prop value) (lit "__proto__") w)
  = prototype (assign_entry table (lit "__proto__") w) /\
  forall k,
    entries (assign_entry (assign_entry table prop value) (lit "__proto__") w) !! k
    = if decide (k = prop) then Some value
      else entries (assign_entry table (lit "__proto__") w) !! k.
Proof.
  intros Hne. rewrite (assign_entry_other table prop) by done.
  set (t0 := {| entries := <[prop:=value]> (entries table); prototype := prototype table |}).
  assert (Hr : reaches___proto__ t0 (lit "__proto__") = reaches___proto__ table (lit "__proto__")).
  { apply reaches___proto___ext; [|done]. unfold t0. cbn [entries].
    by rewrite lookup_insert_ne. }
  unfold assign_entry. rewrite Hr.
  destruct (reaches___proto__ table (lit "__proto__")).
  - split; [by destruct w|]. intros k. rewrite !set___proto___entries. unfold t0. cbn [entries].
    destruct (decide (k = prop)) as [->|Hk]; [apply lookup_insert_eq|by apply lookup_insert_ne].
  - cbn [entries prototype]. split; [done|]. intros k. unfold t0. cbn [entries].
    destruct (decide (k = prop)) as [->|Hk].
    + rewrite lookup_insert_ne by done. apply lookup_insert_eq.
    + destruct (decide (k = lit "__proto__")) as [->|Hk'].
      * by rewrite !lookup_insert_eq.
      * by rewrite !lookup_insert_ne.
Qed.

(** Assignments over distinct names come to this: the assignment under
    [__proto__], if that name is among them, and an own property for every
    other name. *)
Lemma assign_all_spec value props : NoDup props -> forall table,
  let t1 := if decide (lit "__proto__" ∈ props)
            then assign_entry table (lit "__proto__") (value (lit "__proto__"))
            else table in
  prototype (assign_all value table props) = prototype t1 /\
  forall k,
    entries (assign_all value table props) !! k
    = if decide (k ∈ props /\ k <> lit "__proto__") then Some (value k)
      else entries t1 !! k.
Proof.
  induction 1 as [|prop props Hnotin Hnodup IH]; intros table; cbv zeta.
  - rewrite decide_False by apply not_elem_of_nil. split; [done|]. intros k.
    rewrite decide_False; [done|]. intros [Hin _]. by apply elem_of_nil in Hin.
  - change (assign_all value table (prop :: props))
      with (assign_all value (assign_entry table prop (value prop)) props).
    destruct (IH (assign_entry table prop (value prop))) as [Hp He]. rewrite Hp.
    destruct (decide (prop = lit "__proto__")) as [->|Hne].
    + rewrite (decide_False (P := lit "__proto__" ∈ props)) in * by done.
      rewrite (decide_True (P := lit "__proto__" ∈ lit "__proto__" :: props))
        by (apply elem_of_cons; by left).
      split; [done|]. intros k. rewrite He.
      destruct (decide (k ∈ props /\ k <> lit "__proto__")) as [[Hin Hk]|Hnot].
      * rewrite decide_True; [done|]. split; [|done]. apply elem_of_cons; by right.
      * rewrite decide_False; [done|]. rewrite elem_of_cons.
        intros [[?|?] ?]; [done|by apply Hnot].
    + destruct (decide (lit "__proto__" ∈ props)) as [Hin|Hnin].
      * rewrite (decide_True (P := lit "__proto__" ∈ prop :: props))
          by (apply elem_of_cons; by right).
        destruct (assign_entry___proto___after table prop (value prop)
                    (value (lit "__proto__")) Hne) as [Hp' He'].
        split; [done|]. intros k. rewrite He.
        destruct (decide (k ∈ props /\ k <> lit "__proto__")) as [[Hk Hk']|Hnot].
        -- rewrite decide_True; [done|]. split; [|done]. apply elem_of_cons; by right.
        -- rewrite He'. destruct (decide (k = prop)) as [->|Hkp].
           ++ rewrite decide_True; [done|]. split; [|done]. apply elem_of_cons; by left.
           ++ rewrite decide_False; [done|]. rewrite elem_of_cons.
              intros [[?|?] ?]; [done|by apply Hnot].
      * rewrite (decide_False (P := lit "__proto__" ∈ prop :: props))
          by (rewrite elem_of_cons; intros [?|?]; done).
        split; [by rewrite (assign_entry_other table prop) by done|].
        intros k. rewrite He, (assign_entry_other table prop) by done. cbn [entries].
        destruct (decide (k ∈ props /\ k <> lit "__proto__")) as [[Hk Hk']|Hnot].
        -- rewrite decide_True; [done|]. split; [|done]. apply elem_of_cons; by right.
        -- destruct (decide (k = prop)) as [->|Hkp].
           ++ rewrite decide_True by (split; [apply elem_of_cons; by left|done]).
              apply lookup_insert_eq.
           ++ rewrite decide_False
                by (rewrite elem_of_cons; intros [[?|?] ?]; [done|by apply Hnot]).
              by apply lookup_insert_ne.
Qed.

(** An assignment never removes an own property. *)
Lemma assign_entry_keeps table prop value k :
  is_Some (entries table !! k) -> is_Some (entries (assign_entry table prop value) !! k).
Proof.
  intros Hk. unfold assign_entry. destruct (reaches___proto__ table prop).
  - by rewrite set___proto___entries.
  - cbn [entries]. destruct (decide (k = prop)) as [->|Hne].
    + rewrite lookup_insert_eq. by eexists.
    + by rewrite lookup_insert_ne.
Qed.

Lemma assign_all_keeps value props k : forall table,
  is_Some (entries table !! k) -> is_Some (entries (assign_all value table props) !! k).
Proof.
  induction props as [|prop props IH]; intros table Hk; [done|].
  apply IH. by apply assign_entry_keeps.
Qed.

(** Under [__proto__], a value that is neither an object nor [null]
    assigned a second time changes nothing. *)
Lemma assign_entry___proto___again (a table : Table) w :
  replaces_prototype w = false ->
  entries a !! lit "__proto__" = entries (assign_entry table (lit "__proto__") w) !! lit "__proto__" ->
  prototype a = prototype (assign_entry table (lit "__proto__") w) ->
  prototype (assign_entry a (lit "__proto__") w) = prototype a /\
  forall k, entries (assign_entry a (lit "__proto__") w) !! k = entries a !! k.
Proof.
  intros Hw He Hp.
  assert (Hset : forall t, set___proto__ t w = t) by (intros t; by destruct w).
  unfold assign_entry in He, Hp.
  destruct (reaches___proto__ table (lit "__proto__")) eqn:Hr.
  - rewrite Hset in He, Hp.
    unfold assign_entry. rewrite (reaches___proto___ext a table _ He Hp), Hr, Hset. done.
  - cbn [entries prototype] in He, Hp. rewrite lookup_insert_eq in He.
    assert (Hr' : reaches___proto__ a (lit "__proto__") = false).
    { unfold reaches___proto__. rewrite He. apply andb_false_r. }
    unfold assign_entry. rewrite Hr'. cbn [entries prototype]. split; [done|].
    intros k. destruct (decide (k = lit "__proto__")) as [->|Hne].
    + by rewrite lookup_insert_eq.
    + by rewrite lookup_insert_ne.
Qed.

(** The same assignments again change nothing, unless they give
    [__proto__] an object or [null]. *)
Lemma assign_all_again value props table :
  NoDup props ->
  replaces_prototype (value (lit "__proto__")) = false ->
  assign_all value (assign_all value table props) props = assign_all value table props.
Proof.
  intros Hnodup Hw.
  destruct (assign_all_spec value props Hnodup table) as [Hp He].
  destruct (assign_all_spec value props Hnodup (assign_all value table props)) as [Hp' He'].
  cbv zeta in *.
  assert (Hagain :
    let a := assign_all value table props in
    let a1 := if decide (lit "__proto__" ∈ props)
              then assign_entry a (lit "__proto__") (value (lit "__proto__")) else a in
    prototype a1 = prototype a /\ forall k, entries a1 !! k = entries a !! k).
  { cbv zeta. destruct (decide (lit "__proto__" ∈ props)); [|done].
    apply (assign_entry___proto___again _ table); [done| |done].
    rewrite He. by rewrite decide_False by (by intros [_ ?]). }
  destruct Hagain as [Hp1 He1].
  apply Table_eq.
  - apply map_eq. intros k. rewrite He', He1, He.
    by destruct (decide (k ∈ props /\ k <> lit "__proto__")).
  - by rewrite Hp', Hp1.
Qed.

Lemma NoDup_Object_keys v : NoDup (Object_keys v).
Proof.
  destruct v; simpl; try apply NoDup_nil_2.
  - apply NoDup_fmap_2; [|apply NoDup_seq]. intros i j. apply number_toString_inj.
  - apply NoDup_fst_map_to_list.
Qed.

Lemma elem_of_Object_keys_obj (cfg : gmap jsstring JSValue) k :
  k ∈ Object_keys (VObj cfg) <-> is_Some (cfg !! k).
Proof.
  unfold Object_keys. rewrite list_elem_of_fmap. split.
  - intros ([k' v] & -> & Hin). apply elem_of_map_to_list in Hin. by exists v.
  - intros [v Hv]. exists (k, v). split; [done|]. by apply elem_of_map_to_list.
Qed.

(** * Properties *)

Section Properties.

Context {Plugin AST BundleState : Type}.
Variable host : @Host Plugin AST BundleState.

Implicit Types (w : @World Plugin AST BundleState).
Implicit Types (s : @GlimmerSyntax Plugin AST BundleState).
Implicit Types (m c : jsstring).

(** ** The monad *)

Lemma bind_ok {S A B} (mm : M S A) (k : A -> M S B) st a st' :
  mm st = (Ok a, st') -> bind mm k st = k a st'.
Proof. intros H. unfold bind. by rewrite H. Qed.

Lemma bind_throw {S A B} (mm : M S A) (k : A -> M S B) st e st' :
  mm st = (Throw e, st') -> bind mm k st = (Throw e, st').
Proof. intros H. unfold bind. by rewrite H. Qed.

(** ** The loop of [compile] *)

Lemma foldl_compile_push deps : forall lines counter,
  foldl compile_push (lines, counter) deps
  = (lines ++ dependency_lines counter deps, counter + length deps).
Proof.
  induction deps as [|d deps IH]; intros lines counter; simpl.
  - by rewrite app_nil_r, Nat.add_0_r.
  - rewrite IH, <- app_assoc. simpl. f_equal. lia.
Qed.

Lemma compile_lines_eq (r : Precompiled) :
  compile_lines r = dependency_lines 0 (dependencies r) ++ [export_line (compiled r)].
Proof. unfold compile_lines. by rewrite foldl_compile_push. Qed.

Lemma length_dependency_lines deps : forall counter,
  length (dependency_lines counter deps) = 2 * length deps.
Proof.
  induction deps as [|d deps IH]; intros counter; simpl; [done|].
  rewrite IH. lia.
Qed.

Lemma dependency_lines_lookup deps : forall counter i d,
  deps !! i = Some d ->
  dependency_lines counter deps !! (2 * i) = Some (import_line (counter + i) d) /\
  dependency_lines counter deps !! (2 * i + 1) = Some (define_line (counter + i) d).
Proof.
  induction deps as [|d0 deps IH]; intros counter i d Hi; [done|].
  destruct i as [|i]; simpl in Hi.
  - injection Hi as ->. rewrite Nat.add_0_r. by split.
  - destruct (IH (S counter) i d Hi) as [H1 H2].
    replace (2 * S i) with (S (S (2 * i))) by lia.
    replace (counter + S i) with (S counter + i) by lia.
    split; simpl; [exact H1 | exact H2].
Qed.

Lemma join_cons_cons sep (p q : jsstring) rest :
  join sep (p :: q :: rest) = p ++ sep ++ join sep (q :: rest).
Proof. done. Qed.

(** The text of the module: the two statements of every dependency, each
    ended by a line feed, then the last line. *)
Lemma join_dependency_lines deps : forall counter (last : jsstring),
  join newline (dependency_lines counter deps ++ [last])
  = concat (imap (fun i d => import_line (counter + i) d ++ newline ++
                             define_line (counter + i) d ++ newline) deps)
    ++ last.
Proof.
  induction deps as [|d deps IH]; intros counter last; [done|].
  rewrite imap_cons. cbn [dependency_lines concat app].
  destruct (dependency_lines (S counter) deps ++ [last]) as [|q rest] eqn:Hrest;
    [by destruct (dependency_lines (S counter) deps)|].
  rewrite !join_cons_cons, <- Hrest, IH, Nat.add_0_r, <- !app_assoc.
  do 4 f_equal. f_equal. f_equal. apply imap_ext. intros i x _. simpl.
  by replace (counter + S i) with (S (counter + i)) by lia.
Qed.

(** C1. For every module name and contents, when [precompile] returns,
    [compile] returns this text: for the dependency at position [i] of the
    dependency sequence, in the order of the sequence, the import statement
    binding [a<i>] to its path, a line feed, the registration statement
    defining its runtime name as a function returning [a<i>], a line feed;
    and after the statements of all dependencies the default export wrapping
    the compiled template in [Ember.HTMLBars.template(...)], with which the
    text ends. That text is the lines pushed, joined by a line feed: the
    line [2 i] is the import statement of the dependency at position [i], the
    line [2 i + 1] its registration statement, and the one line after them,
    the last, is the default export. When [precompile] throws, [compile]
    throws the same. *)
Theorem C1_compile_emits_numbered_imports_then_export m c w :
  match precompile host m c w with
  | (Ok r, w') =>
      compile host m c w
      = (Ok (concat
               (imap (fun i d =>
                        (lit "import a" ++ number_toString i ++ lit " from " ++
                         dquote ++ path d ++ dquote ++ lit ";") ++ newline ++
                        (lit "window.define('" ++ runtimeName d ++
                         lit "', function(){ return a" ++ number_toString i ++ lit "});") ++
                        newline)
                  (dependencies r))
             ++ lit "export default Ember.HTMLBars.template(" ++ compiled r ++ lit ");"),
         w') /\
      compile host m c w = (Ok (join newline (compile_lines r)), w') /\
      length (compile_lines r) = 2 * length (dependencies r) + 1 /\
      (forall i d, dependencies r !! i = Some d ->
         compile_lines r !! (2 * i)
         = Some (lit "import a" ++ number_toString i ++ lit " from " ++
                 dquote ++ path d ++ dquote ++ lit ";") /\
         compile_lines r !! (2 * i + 1)
         = Some (lit "window.define('" ++ runtimeName d ++
                 lit "', function(){ return a" ++ number_toString i ++ lit "});")) /\
      compile_lines r !! (2 * length (dependencies r))
      = Some (lit "export default Ember.HTMLBars.template(" ++ compiled r ++ lit ");")
  | (Throw e, w') => compile host m c w = (Throw e, w')
  end.
Proof.
  destruct (precompile host m c w) as [[r|e] w'] eqn:Hpre.
  - split.
    { unfold compile. rewrite (bind_ok _ _ _ _ _ Hpre). unfold ret.
      by rewrite compile_lines_eq, join_dependency_lines. }
    split; [unfold compile; by rewrite (bind_ok _ _ _ _ _ Hpre)|].
    rewrite compile_lines_eq.
    split; [rewrite length_app, length_dependency_lines; simpl; lia|].
    split.
    + intros i d Hi.
      destruct (dependency_lines_lookup _ 0 i d Hi) as [H1 H2].
      split; (rewrite lookup_app_l; [done|]);
        apply lookup_lt_Some in Hi;
        rewrite length_dependency_lines; lia.
    + rewrite lookup_app_r; rewrite length_dependency_lines; [|lia].
      by rewrite Nat.sub_diag.
  - unfold compile. by rewrite (bind_throw _ _ _ _ _ Hpre).
Qed.

(** ** Loading the bundle *)

Lemma scan_grabbed_cacheKey templateCompilerPath source theExports state grabbed s :
  scan_grabbed host templateCompilerPath source theExports state grabbed = Ok s ->
  gs_cacheKey s = md5_hex host source.
Proof.
  induction grabbed as [|obj rest IH]; simpl; [done|].
  destruct (glimmer_syntax obj ≫= _) as [[mo pr]|]; [|exact IH].
  destruct (compile_options obj); [|done].
  intros [= <-]. done.
Qed.

(** What [loadGlimmerSyntax] does, case by case. *)
Lemma loadGlimmerSyntax_outcome templateCompilerPath (p : Process) :
  loadGlimmerSyntax host templateCompilerPath p
  = match files p !! templateCompilerPath with
    | None =>
        (Throw (Error (lit "ENOENT: no such file or directory, open '" ++
                       templateCompilerPath ++ lit "'")), p)
    | Some bytes =>
        if Object_create_writable p then
          let run :=
            new_Function_call host (function_body (utf8_decode bytes))
              (set_Object_create (Interceptor (Object_create p)) p) in
          if Object_create_writable (process_after run) then
            (match completion run with
             | Ok theExports =>
                 scan_grabbed host templateCompilerPath (utf8_decode bytes) theExports
                   (scoped_state run) (constructed run)
             | Throw e => Throw e
             end,
             set_Object_create (Object_create p) (process_after run))
          else (Throw TypeError, process_after run)
        else (Throw TypeError, p)
    end.
Proof.
  unfold loadGlimmerSyntax, bind, get, readFileSync_utf8, assign_Object_create,
    try_finally, run_bundle.
  destruct (files p !! templateCompilerPath) as [bytes|]; [|done].
  destruct (Object_create_writable p); [|done]. simpl.
  destruct (Object_create_writable (process_after _)).
  - destruct (completion (new_Function_call host _ _)) as [ex|e] eqn:Hc; simpl; [|done].
    by rewrite Hc.
  - done.
Qed.

Lemma loadGlimmerSyntax_cacheKey templateCompilerPath (p p' : Process) bytes s :
  files p !! templateCompilerPath = Some bytes ->
  loadGlimmerSyntax host templateCompilerPath p = (Ok s, p') ->
  gs_cacheKey s = md5_hex host (utf8_decode bytes).
Proof.
  intros Hfile. rewrite loadGlimmerSyntax_outcome, Hfile.
  destruct (Object_create_writable p); [|done]. cbv zeta.
  destruct (Object_create_writable (process_after _)); [|done].
  destruct (completion (new_Function_call host _ _)) as [ex|e]; [|done].
  intros [= Hscan _]. by apply scan_grabbed_cacheKey in Hscan.
Qed.

(** C4, amended. [loadGlimmerSyntax] puts the global [Object.create] back
    to what it was before the call on every exit on which the assignment of
    the [finally] block takes effect: when the file is missing or
    [Object.create] is read-only from the start, nothing was installed;
    when the bundle leaves the property writable, [Object.create] is the
    original again whether the bundle returned or threw and whatever value
    the bundle gave it. When the bundle leaves the property read-only, the
    assignment of the [finally] block throws a [TypeError], which is what
    [loadGlimmerSyntax] then throws, and the process stays as the bundle
    left it. *)
Theorem C4_Object_create_restored templateCompilerPath (p : Process) :
  match files p !! templateCompilerPath with
  | None => snd (loadGlimmerSyntax host templateCompilerPath p) = p
  | Some bytes =>
      if Object_create_writable p then
        let run :=
          new_Function_call host (function_body (utf8_decode bytes))
            (set_Object_create (Interceptor (Object_create p)) p) in
        if Object_create_writable (process_after run) then
          Object_create (snd (loadGlimmerSyntax host templateCompilerPath p))
          = Object_create p /\
          fst (loadGlimmerSyntax host templateCompilerPath p)
          = match completion run with
            | Ok theExports =>
                scan_grabbed host templateCompilerPath (utf8_decode bytes) theExports
                  (scoped_state run) (constructed run)
            | Throw e => Throw e
            end
        else
          loadGlimmerSyntax host templateCompilerPath p
          = (Throw TypeError, process_after run)
      else loadGlimmerSyntax host templateCompilerPath p = (Throw TypeError, p)
  end.
Proof.
  rewrite loadGlimmerSyntax_outcome.
  destruct (files p !! templateCompilerPath) as [bytes|]; [|done].
  destruct (Object_create_writable p); [|done]. cbv zeta.
  by destruct (Object_create_writable (process_after _)).
Qed.

(** ** Plugin registration *)

Lemma foldl_call_registerPlugin type (l : list Plugin) : forall s,
  foldl (fun s' pl => call_registerPlugin s' type pl) s l
  = with_internal s (foldl (fun st pl => gs_registerPlugin s type pl st) (gs_internal s) l).
Proof.
  induction l as [|pl l IH]; intros s; simpl.
  - by destruct s.
  - by rewrite IH.
Qed.

Lemma registerPlugins_loop_spec (plugins_ast : list Plugin) : forall remaining i s n,
  i + remaining = length plugins_ast ->
  registerPlugins_loop plugins_ast remaining i s n
  = (foldl (fun s' pl => call_registerPlugin s' (lit "ast") pl) s (drop i plugins_ast),
     n + remaining).
Proof.
  induction remaining as [|remaining IH]; intros i s n Hlen; simpl.
  - rewrite drop_ge by lia. by rewrite Nat.add_0_r.
  - destruct (plugins_ast !! i) as [pl|] eqn:Hi.
    + rewrite IH by lia. rewrite (drop_S _ _ _ Hi). simpl. f_equal. lia.
    + apply lookup_ge_None in Hi. lia.
Qed.

Lemma registerPlugins_spec s (pls : @Plugins Plugin) :
  registerPlugins s pls
  = (foldl (fun s' pl => call_registerPlugin s' (lit "ast") pl) s (default [] (ast pls)),
     length (default [] (ast pls))).
Proof.
  unfold registerPlugins. destruct (ast pls) as [l|]; simpl; [|done].
  by rewrite registerPlugins_loop_spec, drop_0.
Qed.

Lemma initializeEmberENV_keeps s env :
  initializeEmberENV s env = set_Ember s (gs_Ember (initializeEmberENV s env)).
Proof.
  unfold initializeEmberENV. destruct (negb (truthy env)); [by destruct s|done].
Qed.

(** ** [setup()] and its memoization *)

Lemma setup_memoized w r :
  memoized_setup (this w) = Some r -> setup host w = (Ok r, w).
Proof. intros H. unfold setup, bind, get. by rewrite H. Qed.

Lemma setup_ok_memoizes w r w' :
  setup host w = (Ok r, w') -> memoized_setup (this w') = Some r.
Proof.
  unfold setup, bind, get.
  destruct (memoized_setup (this w)) as [r0|] eqn:Hm.
  - unfold ret. by intros [= <- <-].
  - destruct (setup_body host w) as [[r1|e] w1]; [|done].
    unfold update_this, modify, ret. by intros [= <- <-].
Qed.

Lemma setup_ok_again w r w' :
  setup host w = (Ok r, w') -> setup host w' = (Ok r, w').
Proof. intros H. apply setup_memoized. by apply setup_ok_memoizes in H. Qed.

Lemma syntax_inv w s w' :
  syntax host w = (Ok s, w') ->
  exists r, setup host w = (Ok r, w') /\ s = sr_syntax r.
Proof.
  unfold syntax, bind.
  destruct (setup host w) as [[r|e] w1]; [|done].
  unfold ret. intros [= <- <-]. by exists r.
Qed.

Lemma syntax_ok_again w s w' :
  syntax host w = (Ok s, w') -> syntax host w' = (Ok s, w').
Proof.
  intros (r & Hr & ->)%syntax_inv.
  unfold syntax. by rewrite (bind_ok _ _ _ _ _ (setup_ok_again _ _ _ Hr)).
Qed.

Lemma setup_body_spec w s0 (p' : Process) :
  loadGlimmerSyntax host (compilerPath (params (this w))) (process w) = (Ok s0, p') ->
  exists r w',
    setup_body host w = (Ok r, w') /\
    process w' = p' /\
    params (this w') = params (this w) /\
    isParallelSafe (this w') = isParallelSafe (this w) /\
    memoized_setup (this w') = memoized_setup (this w) /\
    userPluginsCount (this w')
    = userPluginsCount (this w) + length (user_plugins (params (this w))) /\
    sr_syntax r
    = initializeEmberENV
        (foldl (fun s' pl => call_registerPlugin s' (lit "ast") pl) s0
           (user_plugins (params (this w))))
        (EmberENV (params (this w))) /\
    sr_cacheKey r
    = md5_hex host (stringify host (VObj {[ lit "syntax" := VStr (gs_cacheKey s0) ]})).
Proof.
  intros Hload. unfold setup_body, bind, get, in_process. rewrite Hload.
  rewrite registerPlugins_spec. unfold user_plugins.
  destruct (resolver (params (this w))) as [res|]; simpl.
  - eexists _, _. split; [reflexivity|]. simpl.
    rewrite foldl_app, length_app. simpl.
    repeat split; try done; try lia.
    f_equal. rewrite (initializeEmberENV_keeps _ _). simpl.
    by rewrite !foldl_call_registerPlugin.
  - eexists _, _. split; [reflexivity|]. simpl.
    rewrite app_nil_r.
    repeat split; try done.
    f_equal. rewrite (initializeEmberENV_keeps _ _). simpl.
    by rewrite !foldl_call_registerPlugin.
Qed.

Lemma setup_body_throw w e (p' : Process) :
  loadGlimmerSyntax host (compilerPath (params (this w))) (process w) = (Throw e, p') ->
  setup_body host w = (Throw e, {| process := p'; this := this w |}).
Proof. intros Hload. unfold setup_body, bind, get, in_process. by rewrite Hload. Qed.

Lemma setup_first_count w r w' :
  memoized_setup (this w) = None ->
  setup host w = (Ok r, w') ->
  userPluginsCount (this w')
  = userPluginsCount (this w) + length (user_plugins (params (this w))).
Proof.
  intros Hm. unfold setup, bind, get. rewrite Hm.
  destruct (loadGlimmerSyntax host (compilerPath (params (this w))) (process w))
    as [[s0|e] p'] eqn:Hload.
  - destruct (setup_body_spec w s0 p' Hload) as (r1 & w1 & -> & _ & _ & _ & _ & Hc & _).
    unfold update_this, modify, ret. by intros [= <- <-].
  - by rewrite (setup_body_throw w e p' Hload).
Qed.

(** C7. On a newly constructed compiler whose bundle loads, [setup()]
    returns; the state of the plugin registry is the one reached by
    registering with type [ast] every plugin of the host in the order of
    [plugins.ast] and then, when there is a resolver, the plugin of the
    resolver; [userPluginsCount] is the number of plugins of the host plus one
    with a resolver and plus zero without; [registerPlugins] alone registers
    the plugins of the host in order and returns their number; and a later
    call of [setup()] returns the memoized value and changes nothing. *)
Theorem C7_registration_order_and_count
    (p : @SetupCompilerParams Plugin) (proc proc' : Process) s0 :
  loadGlimmerSyntax host (compilerPath p) proc = (Ok s0, proc') ->
  let host_plugins := default [] (ast (plugins p)) in
  let register := fun st pl => gs_registerPlugin s0 (lit "ast") pl st in
  exists r w',
    setup host {| process := proc; this := new_TemplateCompiler p |} = (Ok r, w') /\
    gs_internal (sr_syntax r)
    = foldl register (gs_internal s0)
        (host_plugins ++
         match resolver p with Some res => [astTransformer res] | None => [] end) /\
    userPluginsCount (this w')
    = length host_plugins + match resolver p with Some _ => 1 | None => 0 end /\
    registerPlugins s0 (plugins p)
    = (with_internal s0 (foldl register (gs_internal s0) host_plugins),
       length host_plugins) /\
    setup host w' = (Ok r, w').
Proof.
  intros Hload host_plugins register.
  set (w := {| process := proc; this := new_TemplateCompiler p |}).
  destruct (setup_body_spec w s0 proc' Hload)
    as (r & w1 & Hbody & _ & _ & _ & _ & Hcount & Hsyn & _).
  assert (Hsetup : setup host w
                   = (Ok r, {| process := process w1; this := memoize r (this w1) |})).
  { unfold setup, bind, get. simpl. by rewrite Hbody. }
  eexists r, _. split; [exact Hsetup|]. split; [|split; [|split]].
  - rewrite Hsyn, initializeEmberENV_keeps. simpl.
    by rewrite foldl_call_registerPlugin.
  - simpl. rewrite Hcount. simpl. unfold user_plugins.
    rewrite length_app. fold host_plugins. by destruct (resolver p).
  - by rewrite registerPlugins_spec, foldl_call_registerPlugin.
  - by apply setup_ok_again in Hsetup.
Qed.

(** ** [precompile] *)

Lemma precompile_spec m c w s w1 :
  syntax host w = (Ok s, w1) ->
  precompile host m c w
  = match gs_precompile s (gs_internal s) (gs_Ember s) (stripBom c)
            {| pc_contents := c; pc_moduleName := m |} with
    | Throw e => (Throw e, w1)
    | Ok text =>
        match resolver (params (this w1)) with
        | None => (Ok {| compiled := text; dependencies := [] |}, w1)
        | Some res =>
            match dependenciesOf res m with
            | Ok deps => (Ok {| compiled := text; dependencies := deps |}, w1)
            | Throw e => (Throw e, w1)
            end
        end
    end.
Proof.
  intros Hsyn. unfold precompile. rewrite (bind_ok _ _ _ _ _ Hsyn).
  unfold bind, liftR, get, ret.
  destruct (gs_precompile s _ _ _ _); [|done].
  destruct (resolver (params (this w1))) as [res|]; [|done].
  by destruct (dependenciesOf res m).
Qed.

Lemma precompile_syntax_throw m c w e w1 :
  syntax host w = (Throw e, w1) -> precompile host m c w = (Throw e, w1).
Proof. intros Hsyn. unfold precompile. by rewrite (bind_throw _ _ _ _ _ Hsyn). Qed.

(** C6. For every module name and contents: [precompile] calls the
    [precompile] entry point of the extracted compiler with the contents
    without a leading byte-order mark as its first argument and the options
    [{contents, moduleName}] as its second, where [contents] is the argument
    as it was given; the [compiled] it returns is what the entry point
    returned, and what the entry point or the setup throws, it throws. A
    leading U+FEFF is removed and a string without one is passed as it is. *)
Theorem C6_precompile_strips_bom m c w :
  match syntax host w with
  | (Ok s, w1) =>
      match gs_precompile s (gs_internal s) (gs_Ember s) (stripBom c)
              {| pc_contents := c; pc_moduleName := m |} with
      | Ok text =>
          match precompile host m c w with
          | (Ok r, w2) => compiled r = text /\ w2 = w1
          | (Throw e, w2) =>
              exists res, resolver (params (this w1)) = Some res /\
                          dependenciesOf res m = Throw e
          end
      | Throw e => precompile host m c w = (Throw e, w1)
      end
  | (Throw e, w1) => precompile host m c w = (Throw e, w1)
  end /\
  (forall rest, stripBom (BOM :: rest) = rest) /\
  (forall text, head text <> Some BOM -> stripBom text = text).
Proof.
  split; [|split].
  - destruct (syntax host w) as [[s|e] w1] eqn:Hsyn.
    + rewrite (precompile_spec m c w s w1 Hsyn).
      destruct (gs_precompile s _ _ _ _) as [text|e]; [|done].
      destruct (resolver (params (this w1))) as [res|]; [|done].
      destruct (dependenciesOf res m) as [deps|e] eqn:Hd; [done|].
      by exists res.
    + by apply precompile_syntax_throw.
  - intros rest. unfold stripBom. by rewrite N.eqb_refl.
  - intros [|ch rest] Hhead; [done|]. unfold stripBom.
    destruct (N.eqb_spec ch BOM) as [->|]; [|done]. by destruct Hhead.
Qed.

(** ** What every method leaves of the instance *)

Lemma setup_preserves w :
  params (this (snd (setup host w))) = params (this w) /\
  isParallelSafe (this (snd (setup host w))) = isParallelSafe (this w).
Proof.
  unfold setup, bind, get.
  destruct (memoized_setup (this w)) as [r0|]; [done|].
  destruct (loadGlimmerSyntax host (compilerPath (params (this w))) (process w))
    as [[s0|e] p'] eqn:Hload.
  - destruct (setup_body_spec w s0 p' Hload) as (r1 & w1 & -> & _ & Hp & Hs & _).
    by simpl.
  - by rewrite (setup_body_throw w e p' Hload).
Qed.

Lemma syntax_snd w : snd (syntax host w) = snd (setup host w).
Proof. unfold syntax, bind. by destruct (setup host w) as [[r|e] w1]. Qed.

Lemma cacheKey_snd w : snd (cacheKey host w) = snd (setup host w).
Proof. unfold cacheKey, bind. by destruct (setup host w) as [[r|e] w1]. Qed.

Lemma precompile_snd m c w : snd (precompile host m c w) = snd (setup host w).
Proof.
  rewrite <- syntax_snd.
  destruct (syntax host w) as [[s|e] w1] eqn:Hsyn.
  - rewrite (precompile_spec m c w s w1 Hsyn).
    destruct (gs_precompile s _ _ _ _); [|done].
    destruct (resolver (params (this w1))) as [res|]; [|done].
    by destruct (dependenciesOf res m).
  - by rewrite (precompile_syntax_throw m c w e w1 Hsyn).
Qed.

Lemma compile_snd m c w : snd (compile host m c w) = snd (setup host w).
Proof.
  rewrite <- precompile_snd with (m := m) (c := c).
  unfold compile, bind. by destruct (precompile host m c w) as [[r|e] w1].
Qed.

Lemma applyTransforms_spec m c w s w1 :
  syntax host w = (Ok s, w1) ->
  applyTransforms host m c w
  = (match gs_preprocess s (gs_internal s) (gs_Ember s) c
             (slice_plugins (userPluginsCount (this w1))
                (gs_defaultOptions s (gs_internal s) (gs_Ember s)
                   {| po_contents := c; po_moduleName := m; po_plugins := None |})) with
     | Ok tree => Ok (gs_print s tree)
     | Throw e => Throw e
     end, w1).
Proof.
  intros Hsyn. pose proof (syntax_ok_again _ _ _ Hsyn) as Hagain.
  unfold applyTransforms. rewrite (bind_ok _ _ _ _ _ Hsyn).
  unfold bind at 1. unfold get at 1.
  rewrite (bind_ok _ _ _ _ _ Hagain).
  unfold bind, liftR, ret.
  destruct (gs_preprocess s _ _ _ _); [|done].
  by rewrite Hagain.
Qed.

Lemma applyTransforms_syntax_throw m c w e w1 :
  syntax host w = (Throw e, w1) -> applyTransforms host m c w = (Throw e, w1).
Proof. intros Hsyn. unfold applyTransforms. by rewrite (bind_throw _ _ _ _ _ Hsyn). Qed.

Lemma applyTransforms_snd m c w : snd (applyTransforms host m c w) = snd (setup host w).
Proof.
  rewrite <- syntax_snd.
  destruct (syntax host w) as [[s|e] w1] eqn:Hsyn.
  - by rewrite (applyTransforms_spec m c w s w1 Hsyn).
  - by rewrite (applyTransforms_syntax_throw m c w e w1 Hsyn).
Qed.

Lemma parse_snd m c w : snd (parse host m c w) = snd (setup host w).
Proof.
  rewrite <- syntax_snd. unfold parse, bind, liftR.
  by destruct (syntax host w) as [[s|e] w1].
Qed.

Lemma run_call_snd w call : run_call host w call = snd (setup host w).
Proof.
  destruct call; simpl.
  - apply cacheKey_snd.
  - apply precompile_snd.
  - apply compile_snd.
  - apply applyTransforms_snd.
  - apply parse_snd.
Qed.

Lemma run_calls_isParallelSafe calls : forall w,
  isParallelSafe (this (run_calls host w calls)) = isParallelSafe (this w).
Proof.
  induction calls as [|call calls IH]; intros w; [done|].
  unfold run_calls in *. simpl. rewrite IH, run_call_snd.
  apply setup_preserves.
Qed.

(** C5. With no resolver configured, for every module name and contents,
    when [precompile] returns its dependency sequence is empty, the only line
    of [compile] is the default export of the precompiled payload, and
    [compile] returns exactly that line, with no import line; when
    [precompile] throws, [compile] throws the same. *)
Theorem C5_no_resolver_no_imports m c w :
  resolver (params (this w)) = None ->
  match precompile host m c w with
  | (Ok r, w') =>
      dependencies r = [] /\
      compile_lines r = [lit "export default Ember.HTMLBars.template(" ++ compiled r ++ lit ");"] /\
      compile host m c w
      = (Ok (lit "export default Ember.HTMLBars.template(" ++ compiled r ++ lit ");"), w')
  | (Throw e, w') => compile host m c w = (Throw e, w')
  end.
Proof.
  intros Hres.
  destruct (precompile host m c w) as [[r|e] w'] eqn:Hpre.
  - assert (Hdeps : dependencies r = []).
    { destruct (syntax host w) as [[s|e] w1] eqn:Hsyn.
      - rewrite (precompile_spec m c w s w1 Hsyn) in Hpre.
        assert (Hp : params (this w1) = params (this w)).
        { pose proof (syntax_snd w) as Hsnd. rewrite Hsyn in Hsnd. simpl in Hsnd.
          rewrite Hsnd. apply setup_preserves. }
        rewrite Hp, Hres in Hpre.
        destruct (gs_precompile s _ _ _ _); [|done].
        by injection Hpre as <- _.
      - by rewrite (precompile_syntax_throw m c w e w1 Hsyn) in Hpre. }
    assert (Hlines : compile_lines r = [export_line (compiled r)]).
    { by rewrite compile_lines_eq, Hdeps. }
    split; [done|]. split; [done|].
    unfold compile. rewrite (bind_ok _ _ _ _ _ Hpre), Hlines. done.
  - unfold compile. by rewrite (bind_throw _ _ _ _ _ Hpre).
Qed.

(** C3. For every module name and contents, once the extracted compiler is
    set up, [applyTransforms] computes its default options for
    [{contents, moduleName}], preprocesses the contents with them and returns
    the printed tree; when the options have an AST plugin list, the list
    handed to the preprocessor is its first [userPluginsCount] entries and
    nothing else of the options changes. With a count of 2 and a list of 5
    these are the first two entries of the list. On an instance that was not
    set up before and counts from 0, the count is the number of
    user-installed plugins. What the setup throws, [applyTransforms]
    throws. *)
Theorem C3_applyTransforms_keeps_user_plugins m c w :
  match syntax host w with
  | (Ok s, w1) =>
      let opts :=
        gs_defaultOptions s (gs_internal s) (gs_Ember s)
          {| po_contents := c; po_moduleName := m; po_plugins := None |} in
      let n := userPluginsCount (this w1) in
      applyTransforms host m c w
      = (match gs_preprocess s (gs_internal s) (gs_Ember s) c (slice_plugins n opts) with
         | Ok tree => Ok (gs_print s tree)
         | Throw e => Throw e
         end, w1) /\
      (forall pl l, po_plugins opts = Some pl -> ast pl = Some l ->
         slice_plugins n opts
         = {| po_contents := po_contents opts; po_moduleName := po_moduleName opts;
              po_plugins := Some {| ast := Some (take n l) |} |}) /\
      (forall pl l, po_plugins opts = Some pl -> ast pl = Some l ->
         n = 2 -> length l = 5 ->
         exists u0 u1 b0 b1 b2,
           l = [u0; u1; b0; b1; b2] /\
           po_plugins (slice_plugins n opts) = Some {| ast := Some [u0; u1] |}) /\
      (memoized_setup (this w) = None -> userPluginsCount (this w) = 0 ->
         n = length (user_plugins (params (this w))))
  | (Throw e, w1) => applyTransforms host m c w = (Throw e, w1)
  end.
Proof.
  destruct (syntax host w) as [[s|e] w1] eqn:Hsyn.
  - cbv zeta. split; [by apply applyTransforms_spec|].
    split; [|split].
    + intros pl l Hpl Hl. unfold slice_plugins. by rewrite Hpl, Hl.
    + intros pl l Hpl Hl -> Hlen.
      destruct l as [|u0 [|u1 [|b0 [|b1 [|b2 [|? ?]]]]]]; try done.
      exists u0, u1, b0, b1, b2. split; [done|].
      unfold slice_plugins. by rewrite Hpl, Hl.
    + intros Hm H0.
      destruct (syntax_inv _ _ _ Hsyn) as (r & Hr & _).
      rewrite (setup_first_count w r w1 Hm Hr), H0. done.
  - by apply applyTransforms_syntax_throw.
Qed.

(** C10. A newly constructed [TemplateCompiler] has [isParallelSafe] false;
    no sequence of calls of [cacheKey], [precompile], [compile],
    [applyTransforms] and [parse] changes the flag of an instance, so it is
    still false after any such calls on a new instance; an assignment from
    outside sets it, as the one in the program text that [serialize()]
    renders does: the text holds the statement
    [templateCompiler.isParallelSafe = <true or false>;] for the value given
    to the template, and the compiler built by that text has that value. *)
Theorem C10_isParallelSafe_false_unless_assigned :
  (forall p : @SetupCompilerParams Plugin,
     isParallelSafe (@new_TemplateCompiler Plugin AST BundleState p) = false) /\
  (forall w calls,
     isParallelSafe (this (run_calls host w calls)) = isParallelSafe (this w)) /\
  (forall (p : @SetupCompilerParams Plugin) (proc : Process) calls,
     isParallelSafe
       (this (run_calls host {| process := proc; this := new_TemplateCompiler p |} calls))
     = false) /\
  (forall (loaded : @SetupCompilerParams Plugin) (b : bool),
     isParallelSafe (@reconstructed Plugin AST BundleState loaded b) = b) /\
  (forall here_escaped portable_json, exists before after, forall b : bool,
     PortableTemplateCompiler_template here_escaped portable_json b
     = before ++ newline ++
       lit "  templateCompiler.isParallelSafe = " ++ render_boolean b ++ lit ";" ++
       newline ++ after).
Proof.
  split; [done|]. split; [intros w calls; apply run_calls_isParallelSafe|].
  split; [intros p proc calls; by rewrite run_calls_isParallelSafe|].
  split; [done|].
  intros here_escaped portable_json.
  exists (newline ++ lit "  " ++ dquote ++ lit "use strict" ++ dquote ++ lit ";" ++
          newline ++ lit "  const { PortablePluginConfig } = require('" ++
          here_escaped ++ lit "');" ++
          newline ++
          lit "  const TemplateCompiler = require('@embroider/core/src/template-compiler').default;" ++
          newline ++
          lit "  const templateCompiler = new TemplateCompiler(PortablePluginConfig.load(" ++
          portable_json ++ lit "));").
  exists (lit "  module.exports = templateCompiler;" ++ newline ++ lit "  ").
  intros b. unfold PortableTemplateCompiler_template.
  by rewrite <- !app_assoc.
Qed.

(** ** [initializeEmberENV] *)

Lemma foldl_copy_feature features ks : forall e : EmberGlobal,
  foldl (copy_feature features) e ks
  = {| FEATURES := assign_all (get_prop features) (FEATURES e) ks; ENV := ENV e |}.
Proof.
  induction ks as [|key ks IH]; intros e; simpl; [by destruct e|]. by rewrite IH.
Qed.

Lemma foldl_copy_env env ks : forall e : EmberGlobal,
  foldl (copy_env env) e ks
  = {| FEATURES := FEATURES e;
       ENV := assign_all (get_prop env) (ENV e)
                (filter (fun prop => prop <> lit "FEATURES") ks) |}.
Proof.
  induction ks as [|key ks IH]; intros e; simpl; [by destruct e|].
  rewrite IH. unfold copy_env. destruct (decide (key = lit "FEATURES")) as [Hkey|Hkey].
  - by rewrite filter_cons_False by (by intros ?).
  - by rewrite filter_cons_True by done.
Qed.

(** The tables after [initializeEmberENV] on a truthy configuration. *)
Lemma initializeEmberENV_Ember s env :
  truthy env = true ->
  gs_Ember (initializeEmberENV s env)
  = {| FEATURES :=
         if truthy (get_prop env (lit "FEATURES"))
         then assign_all (get_prop (get_prop env (lit "FEATURES"))) (FEATURES (gs_Ember s))
                (Object_keys (get_prop env (lit "FEATURES")))
         else FEATURES (gs_Ember s);
       ENV := assign_all (get_prop env) (ENV (gs_Ember s))
                (filter (fun prop => prop <> lit "FEATURES") (Object_keys env)) |}.
Proof.
  intros Ht. unfold initializeEmberENV. rewrite Ht. cbn [negb gs_Ember set_Ember].
  rewrite foldl_copy_env. cbn [FEATURES ENV].
  destruct (truthy (get_prop env (lit "FEATURES"))); [|done].
  by rewrite foldl_copy_feature.
Qed.

Lemma NoDup_env_keys env :
  NoDup (filter (fun prop => prop <> lit "FEATURES") (Object_keys env)).
Proof. apply NoDup_filter, NoDup_Object_keys. Qed.

Lemma elem_of_env_keys env k :
  k ∈ filter (fun prop => prop <> lit "FEATURES") (Object_keys env)
  <-> k <> lit "FEATURES" /\ k ∈ Object_keys env.
Proof. apply (list_elem_of_filter (fun prop => prop <> lit "FEATURES")). Qed.

(** C8, amended. [initializeEmberENV] returns the extracted compiler as it
    is when the configuration is missing (or any other falsy value). For a
    configuration object it changes only the two tables of [_Ember], by
    assignments [table[prop] = value]. Every entry of a [FEATURES] object
    under a name other than [__proto__] is an entry of the feature table
    afterwards, and the other names of that table, [__proto__] apart, keep
    what they had; every entry of the configuration under a name other than
    [FEATURES] and [__proto__] is an entry of the environment table
    afterwards, the other names of that table, [__proto__] apart, keep what
    they had, and the key [FEATURES] itself is not written to the environment
    table; a configuration without a (truthy) [FEATURES] leaves the feature
    table as it is. An own key [__proto__] of the configuration or of its
    [FEATURES] is assigned like the others, and that assignment alone decides
    what the table has under [__proto__] and which prototype it has
    afterwards: on a table that inherits the accessor [__proto__] (an
    ordinary object without such an own property) no entry is made. *)
Theorem C8_initializeEmberENV_copies_tables s env :
  (truthy env = false -> initializeEmberENV s env = s) /\
  (forall cfg, env = VObj cfg ->
     let e := gs_Ember s in
     let e' := gs_Ember (initializeEmberENV s env) in
     initializeEmberENV s env = set_Ember s e' /\
     (forall feats k v,
        cfg !! lit "FEATURES" = Some (VObj feats) ->
        k <> lit "__proto__" -> feats !! k = Some v ->
        entries (FEATURES e') !! k = Some v) /\
     (forall feats k,
        cfg !! lit "FEATURES" = Some (VObj feats) ->
        k <> lit "__proto__" -> feats !! k = None ->
        entries (FEATURES e') !! k = entries (FEATURES e) !! k) /\
     (forall feats,
        cfg !! lit "FEATURES" = Some (VObj feats) ->
        let t := match feats !! lit "__proto__" with
                 | Some v => assign_entry (FEATURES e) (lit "__proto__") v
                 | None => FEATURES e
                 end in
        entries (FEATURES e') !! lit "__proto__" = entries t !! lit "__proto__" /\
        prototype (FEATURES e') = prototype t) /\
     (truthy (get_prop env (lit "FEATURES")) = false -> FEATURES e' = FEATURES e) /\
     (forall k v,
        k <> lit "FEATURES" -> k <> lit "__proto__" -> cfg !! k = Some v ->
        entries (ENV e') !! k = Some v) /\
     (forall k,
        k <> lit "__proto__" -> cfg !! k = None ->
        entries (ENV e') !! k = entries (ENV e) !! k) /\
     entries (ENV e') !! lit "FEATURES" = entries (ENV e) !! lit "FEATURES" /\
     (let t := match cfg !! lit "__proto__" with
               | Some v => assign_entry (ENV e) (lit "__proto__") v
               | None => ENV e
               end in
      entries (ENV e') !! lit "__proto__" = entries t !! lit "__proto__" /\
      prototype (ENV e') = prototype t) /\
     (prototype (ENV e) = Object_prototype ->
      entries (ENV e) !! lit "__proto__" = None ->
      entries (ENV e') !! lit "__proto__" = None)).
Proof.
  split.
  - intros Hf. unfold initializeEmberENV. by rewrite Hf.
  - intros cfg ->. cbv zeta. split; [apply initializeEmberENV_keeps|].
    rewrite (initializeEmberENV_Ember s (VObj cfg) eq_refl). cbn [FEATURES ENV].
    pose proof (assign_all_spec (get_prop (VObj cfg)) _ (NoDup_env_keys (VObj cfg))
                  (ENV (gs_Ember s))) as [HEp HEe].
    assert (Hproto : lit "__proto__" <> lit "FEATURES") by done.
    assert (HEt : (if decide (lit "__proto__" ∈
                       filter (fun prop => prop <> lit "FEATURES") (Object_keys (VObj cfg)))
                   then assign_entry (ENV (gs_Ember s)) (lit "__proto__")
                          (get_prop (VObj cfg) (lit "__proto__"))
                   else ENV (gs_Ember s))
                  = match cfg !! lit "__proto__" with
                    | Some v => assign_entry (ENV (gs_Ember s)) (lit "__proto__") v
                    | None => ENV (gs_Ember s)
                    end).
    { destruct (cfg !! lit "__proto__") as [v|] eqn:Hv.
      - rewrite decide_True; [by simpl; rewrite Hv|].
        apply elem_of_env_keys. split; [done|]. apply elem_of_Object_keys_obj. by exists v.
      - rewrite decide_False; [done|]. rewrite elem_of_env_keys, elem_of_Object_keys_obj, Hv.
        by intros [_ [? ?]]. }
    rewrite HEt in HEp, HEe.
    split; [|split; [|split; [|split; [|split; [|split; [|split; [|split]]]]]]].
    + intros feats k v Hfe Hne Hk. simpl. rewrite Hfe. simpl.
      rewrite (proj2 (assign_all_spec _ _ (NoDup_Object_keys (VObj feats)) _) k).
      rewrite decide_True; [by simpl; rewrite Hk|].
      split; [|done]. apply elem_of_Object_keys_obj. by exists v.
    + intros feats k Hfe Hne Hk. simpl. rewrite Hfe. simpl.
      rewrite (proj2 (assign_all_spec _ _ (NoDup_Object_keys (VObj feats)) _) k).
      rewrite decide_False
        by (rewrite elem_of_Object_keys_obj, Hk; by intros [[? ?] _]).
      destruct (decide (lit "__proto__" ∈ Object_keys (VObj feats))); [|done].
      by rewrite assign_entry_other_lookup.
    + intros feats Hfe. simpl. rewrite Hfe. simpl.
      change ((map_to_list feats).*1) with (Object_keys (VObj feats)).
      destruct (assign_all_spec (get_prop (VObj feats)) _ (NoDup_Object_keys (VObj feats))
                  (FEATURES (gs_Ember s))) as [HFp HFe].
      rewrite HFp, HFe. rewrite decide_False by (by intros [_ ?]).
      destruct (feats !! lit "__proto__") as [v|] eqn:Hv.
      * rewrite decide_True by (apply elem_of_Object_keys_obj; by exists v).
        simpl. by rewrite Hv.
      * rewrite decide_False; [done|]. rewrite elem_of_Object_keys_obj, Hv. by intros [? ?].
    + intros Hf. by rewrite Hf.
    + intros k v Hne Hne' Hk. rewrite HEe.
      rewrite decide_True; [by simpl; rewrite Hk|].
      split; [|done]. apply elem_of_env_keys. split; [done|].
      apply elem_of_Object_keys_obj. by exists v.
    + intros k Hne Hk. rewrite HEe.
      rewrite decide_False
        by (rewrite elem_of_env_keys, elem_of_Object_keys_obj, Hk; by intros [[_ [? ?]] _]).
      destruct (cfg !! lit "__proto__"); [|done]. by rewrite assign_entry_other_lookup.
    + rewrite HEe. rewrite decide_False by (rewrite elem_of_env_keys; by intros [[? _] _]).
      destruct (cfg !! lit "__proto__"); [|done].
      by rewrite assign_entry_other_lookup.
    + split; [|done]. rewrite HEe. by rewrite decide_False by (by intros [_ ?]).
    + intros Hp Hnone. rewrite HEe. rewrite decide_False by (by intros [_ ?]).
      destruct (cfg !! lit "__proto__") as [v|]; [|done].
      unfold assign_entry, reaches___proto__.
      rewrite bool_decide_true, Hnone, Hp by done. cbn [andb].
      by rewrite set___proto___entries.
Qed.

(** ** The cache key *)

Lemma cacheKey_first w bytes k w' :
  memoized_setup (this w) = None ->
  files (process w) !! compilerPath (params (this w)) = Some bytes ->
  cacheKey host w = (Ok k, w') ->
  k = md5_hex host
        (stringify host
           (VObj {[ lit "syntax" := VStr (md5_hex host (utf8_decode bytes)) ]})).
Proof.
  intros Hm Hfile. unfold cacheKey, setup, bind, get. rewrite Hm.
  destruct (loadGlimmerSyntax host (compilerPath (params (this w))) (process w))
    as [[s0|e] p'] eqn:Hload.
  - destruct (setup_body_spec w s0 p' Hload) as (r & w1 & -> & _ & _ & _ & _ & _ & _ & Hk).
    unfold update_this, modify, ret. intros [= <- _].
    by rewrite Hk, (loadGlimmerSyntax_cacheKey _ _ _ _ _ Hfile Hload).
  - by rewrite (setup_body_throw w e p' Hload).
Qed.

Lemma scan_grabbed_other_path path1 path2 source theExports state grabbed s :
  scan_grabbed host path1 source theExports state grabbed = Ok s ->
  scan_grabbed host path2 source theExports state grabbed = Ok s.
Proof.
  induction grabbed as [|obj rest IH]; simpl; [done|].
  destruct (glimmer_syntax obj ≫= _) as [[mo pr]|]; [|exact IH].
  by destruct (compile_options obj).
Qed.

Lemma loadGlimmerSyntax_same_text path1 path2 (p p' : Process) bytes1 bytes2 s :
  files p !! path1 = Some bytes1 ->
  files p !! path2 = Some bytes2 ->
  utf8_decode bytes1 = utf8_decode bytes2 ->
  loadGlimmerSyntax host path1 p = (Ok s, p') ->
  loadGlimmerSyntax host path2 p = (Ok s, p').
Proof.
  intros Hf1 Hf2 Htext. rewrite !loadGlimmerSyntax_outcome, Hf1, Hf2, Htext.
  destruct (Object_create_writable p); [|done]. cbv zeta.
  destruct (Object_create_writable (process_after _)); [|done].
  destruct (completion (new_Function_call host _ _)) as [ex|e]; [|done].
  intros [= Hscan <-]. by rewrite (scan_grabbed_other_path _ path2 _ _ _ _ _ Hscan).
Qed.

(** Two cores in one process whose bundle files decode to the same text:
    when the one gets a [cacheKey], the other gets the same. *)
Lemma cacheKey_same_text w1 w2 bytes1 bytes2 k :
  memoized_setup (this w1) = None ->
  memoized_setup (this w2) = None ->
  process w1 = process w2 ->
  files (process w1) !! compilerPath (params (this w1)) = Some bytes1 ->
  files (process w2) !! compilerPath (params (this w2)) = Some bytes2 ->
  utf8_decode bytes1 = utf8_decode bytes2 ->
  fst (cacheKey host w1) = Ok k ->
  fst (cacheKey host w2) = Ok k.
Proof.
  intros Hm1 Hm2 Hproc Hf1 Hf2 Htext Hk1.
  destruct (cacheKey host w1) as [r1 w1'] eqn:Hc1. simpl in Hk1. subst r1.
  pose proof (cacheKey_first _ _ _ _ Hm1 Hf1 Hc1) as Hkey.
  revert Hc1. unfold cacheKey, setup, bind, get. rewrite Hm1, Hm2.
  destruct (loadGlimmerSyntax host (compilerPath (params (this w1))) (process w1))
    as [[s0|e] p'] eqn:Hload; [|by rewrite (setup_body_throw w1 e p' Hload)].
  intros _. rewrite Hproc in Hload, Hf1.
  pose proof (loadGlimmerSyntax_same_text _ _ _ _ _ _ _ Hf1 Hf2 Htext Hload) as Hload2.
  destruct (setup_body_spec w2 s0 p' Hload2) as (r & w' & -> & _ & _ & _ & _ & _ & _ & Hk).
  unfold update_this, modify, ret. simpl. rewrite Hk, Hkey. f_equal.
  by rewrite (loadGlimmerSyntax_cacheKey _ _ _ _ _ Hf2 Hload2), Htext.
Qed.

(** C2, amended. The [cacheKey] of a core that sets itself up from a
    bundle file is the MD5 digest of the stable JSON text of
    [{syntax: d}], where [d] is the MD5 digest of the text that the bytes of
    the file decode to as UTF-8; the path of the file plays no part. So two
    cores whose bundle files have the same bytes have the same [cacheKey],
    at whatever paths the files are, and so have two cores whose bundle
    files decode to the same text; two cores whose [cacheKey] differ have
    bundle files whose bytes differ. *)
Theorem C2_cacheKey_is_a_digest_of_the_bundle_text w1 w2 bytes1 bytes2 k1 k2 w1' w2' :
  memoized_setup (this w1) = None ->
  memoized_setup (this w2) = None ->
  files (process w1) !! compilerPath (params (this w1)) = Some bytes1 ->
  files (process w2) !! compilerPath (params (this w2)) = Some bytes2 ->
  cacheKey host w1 = (Ok k1, w1') ->
  cacheKey host w2 = (Ok k2, w2') ->
  let key_of := fun bytes =>
    md5_hex host
      (stringify host
         (VObj {[ lit "syntax" := VStr (md5_hex host (utf8_decode bytes)) ]})) in
  k1 = key_of bytes1 /\
  k2 = key_of bytes2 /\
  (bytes1 = bytes2 -> k1 = k2) /\
  (utf8_decode bytes1 = utf8_decode bytes2 -> k1 = k2) /\
  (k1 <> k2 -> bytes1 <> bytes2).
Proof.
  intros Hm1 Hm2 Hf1 Hf2 Hk1 Hk2 key_of.
  apply (cacheKey_first _ _ _ _ Hm1 Hf1) in Hk1.
  apply (cacheKey_first _ _ _ _ Hm2 Hf2) in Hk2.
  fold (key_of bytes1) in Hk1. fold (key_of bytes2) in Hk2.
  split; [done|]. split; [done|]. subst k1 k2.
  split; [by intros ->|]. split.
  - intros Heq. unfold key_of. by rewrite Heq.
  - intros Hne ->. by apply Hne.
Qed.

End Properties.

(** ** Decoding a stray byte

    While a sequence is in progress the decoder accepts no byte below
    0x80, so a comment opener ends any sequence, and the bytes 0xFF and 0xFE
    after it both decode to U+FFFD. *)

Lemma utf8_lead_bounded b : utf8_bounded (utf8_lead b).2.
Proof.
  unfold utf8_lead, utf8_bounded.
  repeat match goal with
         | |- context [if ?t then _ else _] => destruct t; simpl
         end; lia.
Qed.

Lemma utf8_step_bounded st b : utf8_bounded st -> utf8_bounded (utf8_step st b).2.
Proof.
  intros Hst. unfold utf8_step.
  destruct (u_needed st) as [|[|k]]; [apply utf8_lead_bounded| |].
  - destruct (_ && _); simpl; [unfold utf8_bounded; simpl; lia|].
    pose proof (utf8_lead_bounded b) as H. by destruct (utf8_lead b).
  - destruct (_ && _); simpl; [unfold utf8_bounded; simpl; lia|].
    pose proof (utf8_lead_bounded b) as H. by destruct (utf8_lead b).
Qed.

Lemma utf8_run_cons st b rest :
  utf8_run st (b :: rest)
  = (utf8_step st (Byte.to_N b)).1 ++ utf8_run (utf8_step st (Byte.to_N b)).2 rest.
Proof. simpl. by destruct (utf8_step st (Byte.to_N b)). Qed.

Lemma utf8_step_slash_idle st :
  utf8_bounded st -> (utf8_step st (Byte.to_N Byte.x2f)).2 = utf8_idle.
Proof.
  intros Hst. unfold utf8_step.
  destruct (u_needed st) as [|k]; [reflexivity|].
  assert (Hlow : (u_lower st <=? Byte.to_N Byte.x2f)%N = false).
  { apply N.leb_gt. unfold utf8_bounded in Hst.
    change (Byte.to_N Byte.x2f) with 47%N. lia. }
  rewrite Hlow. reflexivity.
Qed.

Lemma utf8_run_stray_byte prefix : forall st,
  utf8_bounded st ->
  utf8_run st (prefix ++ bundle_a) = utf8_run st (prefix ++ bundle_b).
Proof.
  induction prefix as [|b prefix IH]; intros st Hst.
  - unfold bundle_a, bundle_b. rewrite !app_nil_l, !(utf8_run_cons st).
    rewrite (utf8_step_slash_idle st Hst). reflexivity.
  - rewrite <- !app_comm_cons, !utf8_run_cons.
    by rewrite (IH _ (utf8_step_bounded st (Byte.to_N b) Hst)).
Qed.

Lemma utf8_decode_stray_byte prefix :
  utf8_decode (prefix ++ bundle_a) = utf8_decode (prefix ++ bundle_b).
Proof. apply utf8_run_stray_byte. unfold utf8_bounded. simpl. lia. Qed.

(** ** Output paths of the filter *)

Lemma slice_last_app (base suffix : jsstring) n :
  n = length suffix -> slice_last n (base ++ suffix) = suffix.
Proof.
  intros ->. unfold slice_last. rewrite length_app.
  replace (length base + length suffix - length suffix) with (length base) by lia.
  apply drop_app_length.
Qed.

Lemma slice_but_last_app (base suffix : jsstring) n :
  n = length suffix -> slice_but_last n (base ++ suffix) = base.
Proof.
  intros ->. unfold slice_but_last. rewrite length_app.
  replace (length base + length suffix - length suffix) with (length base) by lia.
  apply take_app_length.
Qed.

Lemma slice_last_inv (relativePath suffix : jsstring) :
  slice_last (length suffix) relativePath = suffix ->
  exists base, relativePath = base ++ suffix.
Proof.
  unfold slice_last. intros H.
  exists (take (length relativePath - length suffix) relativePath).
  rewrite <- (take_drop (length relativePath - length suffix) relativePath) at 1.
  by rewrite H.
Qed.

Lemma dest_for_extensions_cons target ext rest (relativePath : jsstring) :
  dest_for_extensions target (ext :: rest) relativePath
  = if decide (slice_last (length ext + 1) relativePath = lit "." ++ ext) then
      Some match target with
           | Some t => slice_but_last (length ext) relativePath ++ t
           | None => relativePath
           end
    else dest_for_extensions target rest relativePath.
Proof. reflexivity. Qed.

Lemma dest_for_extensions_hit target ext rest (base : jsstring) :
  dest_for_extensions target (ext :: rest) (base ++ lit "." ++ ext)
  = Some match target with
         | Some t => base ++ lit "." ++ t
         | None => base ++ lit "." ++ ext
         end.
Proof.
  rewrite dest_for_extensions_cons, decide_True.
  - destruct target as [t|]; [|done].
    rewrite (app_assoc base), slice_but_last_app by done.
    by rewrite <- app_assoc.
  - apply slice_last_app. rewrite length_app.
    change (length (lit ".")) with 1. lia.
Qed.

Lemma dest_for_extensions_skip target ext rest (relativePath : jsstring) :
  slice_last (length ext + 1) relativePath <> lit "." ++ ext ->
  dest_for_extensions target (ext :: rest) relativePath
  = dest_for_extensions target rest relativePath.
Proof. intros H. by rewrite dest_for_extensions_cons, decide_False. Qed.

(** C9. The filter is constructed for the extensions [hbs] and
    [handlebars] at both stages. For every input path that ends in a dot and
    one of the two, the output path at stage 1 is the input path and the
    output path at stage 3 is the input path with that extension replaced by
    [js]; a path that ends in neither is not processed at any stage. So
    [templates/foo.hbs] yields [templates/foo.hbs] at stage 1 and
    [templates/foo.js] at stage 3. *)
Theorem C9_stage_output_paths :
  (forall stage,
     extensions (TemplateCompileTree_options stage) = [lit "hbs"; lit "handlebars"]) /\
  (forall (base ext : jsstring), ext ∈ [lit "hbs"; lit "handlebars"] ->
     getDestFilePath (TemplateCompileTree_options Stage1) (base ++ lit "." ++ ext)
     = Some (base ++ lit "." ++ ext) /\
     getDestFilePath (TemplateCompileTree_options Stage3) (base ++ lit "." ++ ext)
     = Some (base ++ lit "." ++ lit "js")) /\
  (forall stage (relativePath : jsstring),
     (forall base, relativePath <> base ++ lit "." ++ lit "hbs") ->
     (forall base, relativePath <> base ++ lit "." ++ lit "handlebars") ->
     getDestFilePath (TemplateCompileTree_options stage) relativePath = None) /\
  getDestFilePath (TemplateCompileTree_options Stage1) (lit "templates/foo.hbs")
  = Some (lit "templates/foo.hbs") /\
  getDestFilePath (TemplateCompileTree_options Stage3) (lit "templates/foo.hbs")
  = Some (lit "templates/foo.js").
Proof.
  split; [by intros []|]. split; [|split; [|by vm_compute]].
  - intros base ext Hext. unfold getDestFilePath. simpl extensions. simpl targetExtension.
    apply elem_of_cons in Hext as [->|Hext].
    + by rewrite !dest_for_extensions_hit.
    + apply list_elem_of_singleton in Hext as ->.
      assert (Hskip : slice_last (length (lit "hbs") + 1) (base ++ lit "." ++ lit "handlebars")
                      <> lit "." ++ lit "hbs").
      { change (lit "." ++ lit "handlebars") with (lit ".handle" ++ lit "bars").
        rewrite app_assoc, slice_last_app by done. by vm_compute. }
      rewrite (dest_for_extensions_skip None (lit "hbs")) by exact Hskip.
      rewrite (dest_for_extensions_skip (Some _) (lit "hbs")) by exact Hskip.
      by rewrite !dest_for_extensions_hit.
  - intros stage relativePath Hhbs Hhandlebars.
    unfold getDestFilePath. simpl extensions.
    rewrite dest_for_extensions_skip.
    + rewrite dest_for_extensions_skip; [done|].
      intros (base & ->)%(slice_last_inv relativePath (lit "." ++ lit "handlebars")).
      by apply (Hhandlebars base).
    + intros (base & ->)%(slice_last_inv relativePath (lit "." ++ lit "hbs")).
      by apply (Hhbs base).
Qed.

(** * Worked examples on the small bundle *)

(** The example of the specification: the dependencies [a] at [./a] and [b]
    at [./b]. *)
Example compile_two_dependencies :
  fst (compile demo_host (lit "greeting") (lit "Hello") resolver_world)
  = Ok (join newline
          [ lit "import a0 from " ++ dquote ++ lit "./a" ++ dquote ++ lit ";";
            lit "window.define('a', function(){ return a0});";
            lit "import a1 from " ++ dquote ++ lit "./b" ++ dquote ++ lit ";";
            lit "window.define('b', function(){ return a1});";
            lit "export default Ember.HTMLBars.template(" ++
              dquote ++ lit "Hello" ++ dquote ++ lit ");" ]).
Proof. by vm_compute. Qed.

(** Two plugins of the host, three built-in ones appended by the options
    builder: the preprocessor runs the two. *)
Example applyTransforms_two_of_five :
  fst (applyTransforms demo_host (lit "greeting") (lit "Hello") two_plugin_world)
  = Ok (lit "Hello <!-- p0,p1 -->") /\
  (po_plugins
     (demo_defaultOptions [(lit "ast", lit "p0"); (lit "ast", lit "p1")]
        {| FEATURES := ordinary ∅; ENV := ordinary ∅ |}
        {| po_contents := lit "Hello"; po_moduleName := lit "greeting";
           po_plugins := None |})
   ≫= ast)
  = Some [lit "p0"; lit "p1"; lit "builtin-1"; lit "builtin-2"; lit "builtin-3"].
Proof. by vm_compute. Qed.

(** The plugin of the resolver is counted and kept. *)
Example applyTransforms_with_resolver :
  fst (applyTransforms demo_host (lit "greeting") (lit "Hello") resolver_world)
  = Ok (lit "Hello <!-- p0,resolver-plugin -->").
Proof. by vm_compute. Qed.

(** A bundle that replaces [Object.create] and throws: the exception
    propagates and [Object.create] is the native one again. *)
Example Object_create_restored_after_throw :
  fst (loadGlimmerSyntax hostile_host path_a demo_process)
  = Throw (Raised (VStr (lit "boom"))) /\
  Object_create (snd (loadGlimmerSyntax hostile_host path_a demo_process)) = NativeCreate.
Proof. by vm_compute. Qed.

(** A template that starts with a byte-order mark: the entry point sees
    the text without it. *)
Example precompile_strips_leading_bom :
  compiled <$> (match fst (precompile demo_host (lit "greeting") (BOM :: lit "Hello") plain_world) with
                | Ok r => Some r
                | Throw _ => None
                end)
  = Some (dquote ++ lit "Hello" ++ dquote).
Proof. by vm_compute. Qed.

Example initializeEmberENV_copies_demo :
  let e' := gs_Ember (initializeEmberENV demo_syntax demo_EmberENV) in
  FEATURES e' = ordinary {[ lit "flag-a" := VBool true; lit "flag-b" := VBool false ]} /\
  ENV e' = ordinary {[ lit "EXTEND_PROTOTYPES" := VBool false; lit "LOG_VERSION" := VNum 1 ]} /\
  initializeEmberENV demo_syntax VUndefined = demo_syntax.
Proof. by vm_compute. Qed.

(** A configuration with [null] under an own key [__proto__], applied
    twice: the first application makes [null] the prototype of the
    environment table, on which the second then finds no accessor and makes a
    property. *)
Example initializeEmberENV_twice_with_null___proto__ :
  let env := VObj {[ lit "__proto__" := VNull ]} in
  let once := gs_Ember (initializeEmberENV demo_syntax env) in
  let twice := gs_Ember (initializeEmberENV (initializeEmberENV demo_syntax env) env) in
  ENV once = {| entries := ∅; prototype := null_prototype |} /\
  ENV twice = {| entries := {[ lit "__proto__" := VNull ]}; prototype := null_prototype |}.
Proof. by vm_compute. Qed.

(** C2 as stated does not hold. The bundles at [path_a] and
    [path_b] have the same length and differ in their last byte, the digest
    of [demo_host] is injective, and the two cores get the same [cacheKey].
    More generally, on every host and for every bundle: with a comment opener
    and the byte 0xFF appended in one file and a comment opener and the byte
    0xFE appended in the other, the files differ in one byte and, when the
    core of the one gets a [cacheKey], the core of the other gets the same. *)
Lemma C2_distinct_bytes_same_cacheKey :
  bundle_a <> bundle_b /\
  length bundle_a = length bundle_b /\
  take 2 bundle_a = take 2 bundle_b /\
  fst (cacheKey demo_host (demo_world (demo_params path_a None None VUndefined)))
  = Ok demo_key /\
  fst (cacheKey demo_host (demo_world (demo_params path_b None None VUndefined)))
  = Ok demo_key /\
  (forall (Plugin AST BundleState : Type) (h : @Host Plugin AST BundleState)
          (proc : Process) (p1 p2 : @SetupCompilerParams Plugin)
          (bundle : list Byte.byte) k,
     files proc !! compilerPath p1 = Some (bundle ++ bundle_a) ->
     files proc !! compilerPath p2 = Some (bundle ++ bundle_b) ->
     fst (cacheKey h {| process := proc; this := new_TemplateCompiler p1 |}) = Ok k ->
     bundle ++ bundle_a <> bundle ++ bundle_b /\
     fst (cacheKey h {| process := proc; this := new_TemplateCompiler p2 |}) = Ok k).
Proof.
  split; [discriminate|]. split; [done|]. split; [done|].
  split; [by vm_compute|]. split; [by vm_compute|].
  intros Plugin AST BundleState h proc p1 p2 bundle k Hf1 Hf2 Hk.
  split; [by intros ?%app_inv_head|].
  eapply (cacheKey_same_text h
            {| process := proc; this := new_TemplateCompiler p1 |}
            {| process := proc; this := new_TemplateCompiler p2 |});
    [done|done|done|exact Hf1|exact Hf2|apply utf8_decode_stray_byte|exact Hk].
Qed.

(** C2 on two cores whose bundle files are copies of each other at
    different paths. *)
Lemma C2_same_bytes_other_path :
  path_a <> path_c /\
  fst (cacheKey demo_host (demo_world (demo_params path_a None None VUndefined)))
  = fst (cacheKey demo_host (demo_world (demo_params path_c None None VUndefined))) /\
  demo_key = demo_stringify (VObj {[ lit "syntax" := VStr (utf8_decode bundle_a) ]}).
Proof.
  pose (wa := demo_world (demo_params path_a None None VUndefined)).
  pose (wc := demo_world (demo_params path_c None None VUndefined)).
  destruct (C2_cacheKey_is_a_digest_of_the_bundle_text demo_host wa wc bundle_a bundle_a
              demo_key demo_key (snd (cacheKey demo_host wa)) (snd (cacheKey demo_host wc)))
    as (Hk & _ & _ & _ & _); try (vm_compute; reflexivity).
  split; [discriminate|]. split; [vm_compute; reflexivity|]. exact Hk.
Defined.

(** C5 on the scenario of the specification: no resolver, no plugins, the
    template [Hello] of the module [greeting]. *)
Lemma C5_greeting_has_one_line :
  resolver (params (this plain_world)) = None /\
  fst (compile demo_host (lit "greeting") (lit "Hello") plain_world)
  = Ok (lit "export default Ember.HTMLBars.template(" ++
        dquote ++ lit "Hello" ++ dquote ++ lit ");").
Proof.
  split; [reflexivity|].
  pose proof (C5_no_resolver_no_imports demo_host (lit "greeting") (lit "Hello")
                plain_world eq_refl) as H.
  destruct (precompile demo_host (lit "greeting") (lit "Hello") plain_world)
    as [[r|e] w'] eqn:Hpre.
  - destruct H as (_ & _ & ->).
    assert (Hc : compiled r = dquote ++ lit "Hello" ++ dquote).
    { apply (f_equal fst) in Hpre. revert Hpre. vm_compute. intros [= <-]. reflexivity. }
    simpl. rewrite Hc. reflexivity.
  - apply (f_equal fst) in Hpre. revert Hpre. vm_compute. discriminate.
Defined.

(** C7 on a core with one plugin of the host and a resolver. *)
Lemma C7_one_host_plugin_and_resolver :
  exists r w',
    setup demo_host resolver_world = (Ok r, w') /\
    gs_internal (sr_syntax r)
    = [(lit "ast", lit "p0"); (lit "ast", lit "resolver-plugin")] /\
    userPluginsCount (this w') = 2.
Proof.
  destruct (C7_registration_order_and_count demo_host
              (demo_params path_a (Some [lit "p0"]) (Some demo_resolver) VUndefined)
              demo_process demo_process demo_syntax)
    as (r & w' & Hsetup & Hinternal & Hcount & _ & _); [vm_compute; reflexivity|].
  exists r, w'. split; [exact Hsetup|]. split; [exact Hinternal | exact Hcount].
Defined.

(** C1 on the core with the dependencies [a] and [b]: the lines of the
    second dependency. *)
Lemma C1_second_dependency_lines :
  exists r,
    fst (precompile demo_host (lit "greeting") (lit "Hello") resolver_world) = Ok r /\
    dependencies r !! 1 = Some {| runtimeName := lit "b"; path := lit "./b" |} /\
    compile_lines r !! 2
    = Some (lit "import a1 from " ++ dquote ++ lit "./b" ++ dquote ++ lit ";") /\
    compile_lines r !! 3 = Some (lit "window.define('b', function(){ return a1});") /\
    fst (compile demo_host (lit "greeting") (lit "Hello") resolver_world)
    = Ok (lit "import a0 from " ++ dquote ++ lit "./a" ++ dquote ++ lit ";" ++ newline ++
          lit "window.define('a', function(){ return a0});" ++ newline ++
          lit "import a1 from " ++ dquote ++ lit "./b" ++ dquote ++ lit ";" ++ newline ++
          lit "window.define('b', function(){ return a1});" ++ newline ++
          lit "export default Ember.HTMLBars.template(" ++
          dquote ++ lit "Hello" ++ dquote ++ lit ");").
Proof.
  pose proof (C1_compile_emits_numbered_imports_then_export demo_host
                (lit "greeting") (lit "Hello") resolver_world) as H.
  destruct (precompile demo_host (lit "greeting") (lit "Hello") resolver_world)
    as [[r|e] w'] eqn:Hpre.
  - destruct H as (Htext & _ & _ & Hlines & _). exists r. split; [reflexivity|].
    assert (Hd : dependencies r !! 1
                 = Some {| runtimeName := lit "b"; path := lit "./b" |}).
    { apply (f_equal fst) in Hpre. revert Hpre. vm_compute. intros [= <-]. reflexivity. }
    destruct (Hlines 1 _ Hd) as [Himport Hdefine].
    split; [exact Hd|]. split; [exact Himport|]. split; [exact Hdefine|].
    rewrite Htext. cbn [fst]. clear -Hpre.
    apply (f_equal fst) in Hpre. revert Hpre. vm_compute. intros [= <-]. reflexivity.
  - apply (f_equal fst) in Hpre. revert Hpre. vm_compute. discriminate.
Defined.

(** C3 on the core with two plugins of the host: of the five plugins of the
    default options the preprocessor gets [p0] and [p1]. *)
Lemma C3_two_of_five_plugins :
  fst (applyTransforms demo_host (lit "greeting") (lit "Hello") two_plugin_world)
  = Ok (lit "Hello <!-- p0,p1 -->") /\
  exists u0 u1 b0 b1 b2,
    [lit "p0"; lit "p1"] ++ demo_builtins = [u0; u1; b0; b1; b2] /\
    po_plugins
      (slice_plugins 2
         (demo_defaultOptions [(lit "ast", lit "p0"); (lit "ast", lit "p1")]
            {| FEATURES := ordinary ∅; ENV := ordinary ∅ |}
            {| po_contents := lit "Hello"; po_moduleName := lit "greeting";
               po_plugins := None |}))
    = Some {| ast := Some [u0; u1] |}.
Proof.
  pose proof (C3_applyTransforms_keeps_user_plugins demo_host
                (lit "greeting") (lit "Hello") two_plugin_world) as H.
  destruct (syntax demo_host two_plugin_world) as [[s|e] w1] eqn:Hs.
  - revert Hs. vm_compute syntax. intros [= <- <-].
    destruct H as (Happly & _ & Htwo & _). split.
    + rewrite Happly. vm_compute. reflexivity.
    + apply (Htwo {| ast := Some ([lit "p0"; lit "p1"] ++ demo_builtins) |});
        reflexivity.
  - revert Hs. vm_compute. discriminate.
Defined.

(** C6 on a template that starts with a byte-order mark. *)
Lemma C6_bom_is_not_compiled :
  exists r,
    fst (precompile demo_host (lit "greeting") (BOM :: lit "Hello") plain_world) = Ok r /\
    compiled r = dquote ++ lit "Hello" ++ dquote /\
    stripBom (BOM :: lit "Hello") = lit "Hello".
Proof.
  destruct (C6_precompile_strips_bom demo_host (lit "greeting") (BOM :: lit "Hello")
              plain_world) as (H & Hbom & _).
  destruct (precompile demo_host (lit "greeting") (BOM :: lit "Hello") plain_world)
    as [[r|e] w2] eqn:Hpre.
  - exists r. split; [reflexivity|]. split; [|apply Hbom].
    revert H. vm_compute. intros [-> _]. reflexivity.
  - apply (f_equal fst) in Hpre. revert Hpre. vm_compute. discriminate.
Defined.

(** C8 as stated does not hold. The configuration [proto_config] has the
    own key [__proto__], which is not the key [FEATURES]; after
    [initializeEmberENV] on the tables of the small bundle, which are
    ordinary objects, the environment table has the other key of the
    configuration and has no entry under [__proto__]: the assignment called
    the accessor, which ignores a number. With an object in its place the
    accessor makes that object the prototype of the table, again without an
    entry. *)
Lemma C8_own_key_proto_is_not_copied :
  proto_config !! lit "__proto__" = Some (VNum 1) /\
  lit "__proto__" <> lit "FEATURES" /\
  (let e' := gs_Ember (initializeEmberENV demo_syntax (VObj proto_config)) in
   entries (ENV e') !! lit "LOG_VERSION" = Some (VNum 1) /\
   entries (ENV e') !! lit "__proto__" = None) /\
  (let e' := gs_Ember (initializeEmberENV demo_syntax
                         (VObj {[ lit "__proto__" := VObj {[ lit "x" := VNum 1 ]} ]})) in
   entries (ENV e') = ∅ /\
   prototype (ENV e') = object_prototype {[ lit "x" := VNum 1 ]}).
Proof.
  split; [by vm_compute|]. split; [done|]. split; by vm_compute.
Qed.

(** C4 as stated does not hold. The bundle of [pinning_host] makes the
    property [create] of [Object] read-only and returns; the assignment in
    the [finally] block then throws a [TypeError], which is what
    [loadGlimmerSyntax] throws, and [Object.create], the native function
    before the call, is the interceptor after it. *)
Lemma C4_read_only_Object_create_stays_intercepted :
  files demo_process !! path_a = Some bundle_a /\
  Object_create demo_process = NativeCreate /\
  fst (loadGlimmerSyntax pinning_host path_a demo_process) = Throw TypeError /\
  Object_create (snd (loadGlimmerSyntax pinning_host path_a demo_process))
  = Interceptor NativeCreate.
Proof. by vm_compute. Qed.

(** C4 on a bundle that replaces [Object.create] and throws: the property
    stays writable, so the exception of the bundle is thrown on and
    [Object.create] is the native function again. *)
Lemma C4_restored_after_a_throwing_bundle :
  Object_create (snd (loadGlimmerSyntax hostile_host path_a demo_process)) = NativeCreate /\
  fst (loadGlimmerSyntax hostile_host path_a demo_process)
  = Throw (Raised (VStr (lit "boom"))).
Proof.
  pose proof (C4_Object_create_restored hostile_host path_a demo_process) as H.
  vm_compute in H. vm_compute. exact H.
Defined.

(** C8 on a configuration with two feature flags and two other keys, on a
    configuration with an own key [__proto__], and on no configuration. *)
Lemma C8_demo_configuration :
  let e' := gs_Ember (initializeEmberENV demo_syntax demo_EmberENV) in
  let e2 := gs_Ember (initializeEmberENV demo_syntax (VObj proto_config)) in
  entries (FEATURES e') !! lit "flag-a" = Some (VBool true) /\
  entries (ENV e') !! lit "LOG_VERSION" = Some (VNum 1) /\
  entries (ENV e') !! lit "FEATURES" = None /\
  entries (ENV e2) !! lit "LOG_VERSION" = Some (VNum 1) /\
  entries (ENV e2) !! lit "__proto__" = None /\
  initializeEmberENV demo_syntax VUndefined = demo_syntax.
Proof.
  destruct (C8_initializeEmberENV_copies_tables demo_syntax demo_EmberENV) as [_ H].
  destruct (H demo_config eq_refl) as (_ & Hfeature & _ & _ & _ & Henv & _ & Hkey & _).
  destruct (C8_initializeEmberENV_copies_tables demo_syntax (VObj proto_config)) as [_ H2].
  destruct (H2 proto_config eq_refl) as (_ & _ & _ & _ & _ & Henv2 & _ & _ & _ & Hproto).
  destruct (C8_initializeEmberENV_copies_tables demo_syntax VUndefined) as [Hnone _].
  split; [apply (Hfeature demo_features); [reflexivity | discriminate | reflexivity]|].
  split; [apply Henv; [discriminate | discriminate | reflexivity]|].
  split; [rewrite Hkey; reflexivity|].
  split; [apply Henv2; [discriminate | discriminate | reflexivity]|].
  split; [apply Hproto; reflexivity|].
  apply Hnone. reflexivity.
Defined.

(** C9 on a template with the long extension and on a file that is not a
    template. *)
Lemma C9_handlebars_and_other_files :
  getDestFilePath (TemplateCompileTree_options Stage1)
    (lit "components/x-foo" ++ lit "." ++ lit "handlebars")
  = Some (lit "components/x-foo" ++ lit "." ++ lit "handlebars") /\
  getDestFilePath (TemplateCompileTree_options Stage3)
    (lit "components/x-foo" ++ lit "." ++ lit "handlebars")
  = Some (lit "components/x-foo" ++ lit "." ++ lit "js") /\
  getDestFilePath (TemplateCompileTree_options Stage3) (lit "README.md") = None.
Proof.
  destruct C9_stage_output_paths as (_ & Hout & Hother & _).
  destruct (Hout (lit "components/x-foo") (lit "handlebars")) as [H1 H3].
  { apply list_elem_of_further, list_elem_of_here. }
  split; [exact H1|]. split; [exact H3|].
  apply Hother; intros base Heq.
  - apply (f_equal (slice_last 4)) in Heq.
    rewrite slice_last_app in Heq by reflexivity. revert Heq. vm_compute. discriminate.
  - apply (f_equal (slice_last 11)) in Heq.
    rewrite slice_last_app in Heq by reflexivity. revert Heq. vm_compute. discriminate.
Defined.

(** * More properties of the class *)

Section LifeOfAnInstance.

Context {Plugin AST BundleState : Type}.
Variable host : @Host Plugin AST BundleState.

Implicit Types (w : @World Plugin AST BundleState).
Implicit Types (m c : jsstring).

Lemma setup_first_throw w e (p' : Process) :
  memoized_setup (this w) = None ->
  loadGlimmerSyntax host (compilerPath (params (this w))) (process w) = (Throw e, p') ->
  setup host w = (Throw e, {| process := p'; this := this w |}).
Proof.
  intros Hm Hload. unfold setup, bind, get. rewrite Hm.
  by rewrite (setup_body_throw host w e p' Hload).
Qed.

Lemma call_completion_setup w call e w' :
  setup host w = (Throw e, w') -> call_completion host w call = Throw e.
Proof.
  intros Hsetup.
  assert (Hsyn : syntax host w = (Throw e, w')).
  { unfold syntax. by rewrite (bind_throw _ _ _ _ _ Hsetup). }
  destruct call as [|m c|m c|m c|m c]; simpl.
  - unfold cacheKey. by rewrite (bind_throw _ _ _ _ _ Hsetup).
  - by rewrite (precompile_syntax_throw host m c w e w' Hsyn).
  - unfold compile.
    by rewrite (bind_throw _ _ _ _ _ (precompile_syntax_throw host m c w e w' Hsyn)).
  - by rewrite (applyTransforms_syntax_throw host m c w e w' Hsyn).
  - unfold parse. by rewrite (bind_throw _ _ _ _ _ Hsyn).
Qed.

(** X1. On an instance that is not set up, when loading the bundle throws
    (the file is missing, the bundle throws, no object has the expected
    shape), every method throws that exception and leaves the instance as it
    was: nothing is memoized and [userPluginsCount] is not touched, so the
    next call loads the bundle again. *)
Theorem X1_failed_setup_leaves_the_instance w e (p' : Process) call :
  memoized_setup (this w) = None ->
  loadGlimmerSyntax host (compilerPath (params (this w))) (process w) = (Throw e, p') ->
  call_completion host w call = Throw e /\
  run_call host w call = {| process := p'; this := this w |} /\
  memoized_setup (this (run_call host w call)) = None /\
  userPluginsCount (this (run_call host w call)) = userPluginsCount (this w).
Proof.
  intros Hm Hload.
  pose proof (setup_first_throw w e p' Hm Hload) as Hsetup.
  assert (Hrun : run_call host w call = {| process := p'; this := this w |}).
  { by rewrite run_call_snd, Hsetup. }
  split; [by apply (call_completion_setup w call e _ Hsetup)|].
  split; [exact Hrun|]. by rewrite Hrun.
Qed.

Lemma run_events_memoized r events : forall w,
  memoized_setup (this w) = Some r ->
  this (run_events host w events) = this w.
Proof.
  induction events as [|ev events IH]; intros w Hm; [done|].
  unfold run_events in *. simpl.
  assert (Hthis : this (run_event host w ev) = this w).
  { destruct ev as [call|proc]; simpl; [|done].
    by rewrite run_call_snd, (setup_memoized host w r Hm). }
  rewrite IH; [done|]. by rewrite Hthis.
Qed.

(** X3. Once [cacheKey] has returned a key, the instance is never written
    again and [cacheKey] keeps returning that key: after any further method
    calls, and also when the bundle file is changed or removed afterwards,
    since the memoized setup is not computed again. *)
Theorem X3_cacheKey_is_kept_for_life w k w1 (events : list Event) :
  cacheKey host w = (Ok k, w1) ->
  this (run_events host w1 events) = this w1 /\
  fst (cacheKey host (run_events host w1 events)) = Ok k.
Proof.
  unfold cacheKey at 1. unfold bind.
  destruct (setup host w) as [[r|e] w'] eqn:Hsetup; [|done].
  unfold ret. intros [= <- <-].
  pose proof (setup_ok_memoizes host w r w' Hsetup) as Hm.
  pose proof (run_events_memoized r events w' Hm) as Hthis.
  split; [exact Hthis|].
  unfold cacheKey.
  rewrite (bind_ok _ _ _ _ _ (setup_memoized host _ r (eq_trans (f_equal _ Hthis) Hm))).
  done.
Qed.

Lemma syntax_of_this w w1 w2 s :
  syntax host w = (Ok s, w1) -> this w2 = this w1 -> syntax host w2 = (Ok s, w2).
Proof.
  intros (r & Hr & ->)%syntax_inv Hthis.
  pose proof (setup_ok_memoizes host w r w1 Hr) as Hm. rewrite <- Hthis in Hm.
  unfold syntax. by rewrite (bind_ok _ _ _ _ _ (setup_memoized host w2 r Hm)).
Qed.

Lemma compile_fst m c w :
  fst (compile host m c w)
  = match fst (precompile host m c w) with
    | Ok r => Ok (join newline (compile_lines r))
    | Throw e => Throw e
    end.
Proof. unfold compile, bind. by destruct (precompile host m c w) as [[r|e] w']. Qed.

Lemma precompile_of_this m c w w1 w2 s :
  syntax host w = (Ok s, w1) -> this w2 = this w1 ->
  fst (precompile host m c w2) = fst (precompile host m c w).
Proof.
  intros Hsyn Hthis.
  rewrite (precompile_spec host m c w s w1 Hsyn).
  rewrite (precompile_spec host m c w2 s w2 (syntax_of_this w w1 w2 s Hsyn Hthis)).
  rewrite Hthis.
  destruct (gs_precompile s _ _ _ _); [|done].
  destruct (resolver (params (this w1))) as [res|]; [|done].
  by destruct (dependenciesOf res m).
Qed.

Lemma applyTransforms_of_this m c w w1 w2 s :
  syntax host w = (Ok s, w1) -> this w2 = this w1 ->
  fst (applyTransforms host m c w2) = fst (applyTransforms host m c w).
Proof.
  intros Hsyn Hthis.
  rewrite (applyTransforms_spec host m c w s w1 Hsyn).
  rewrite (applyTransforms_spec host m c w2 s w2 (syntax_of_this w w1 w2 s Hsyn Hthis)).
  by rewrite Hthis.
Qed.

Lemma events_after_syntax w w1 s events :
  syntax host w = (Ok s, w1) -> this (run_events host w1 events) = this w1.
Proof.
  intros (r & Hr & _)%syntax_inv.
  by apply (run_events_memoized r), (setup_ok_memoizes host w r w1).
Qed.

(** X4. What [compile] and [applyTransforms] returned for a module and its
    contents they return again for the same arguments at any later time, after
    any other calls and any changes to the files: the plugins are not
    registered a second time and the bundle is not read again. (The functions
    of the bundle and the resolver answer by their arguments and by the state
    the class has written, as everywhere in this model.) *)
Theorem X4_outputs_are_repeatable m c w out w1 (events : list Event) :
  (compile host m c w = (Ok out, w1) ->
   fst (compile host m c (run_events host w1 events)) = Ok out) /\
  (applyTransforms host m c w = (Ok out, w1) ->
   fst (applyTransforms host m c (run_events host w1 events)) = Ok out).
Proof.
  split; intros Hcall.
  - destruct (syntax host w) as [[s|e] w'] eqn:Hsyn.
    + assert (w' = w1) as ->.
      { pose proof (compile_snd host m c w) as H1. pose proof (syntax_snd host w) as H2.
        rewrite Hcall in H1. rewrite Hsyn in H2. simpl in H1, H2. congruence. }
      rewrite compile_fst.
      rewrite (precompile_of_this m c w w1 _ s Hsyn (events_after_syntax w w1 s events Hsyn)).
      rewrite <- compile_fst. by rewrite Hcall.
    + pose proof (compile_fst m c w) as H.
      rewrite (precompile_syntax_throw host m c w e w' Hsyn), Hcall in H. done.
  - destruct (syntax host w) as [[s|e] w'] eqn:Hsyn.
    + assert (w' = w1) as ->.
      { pose proof (applyTransforms_snd host m c w) as H1.
        pose proof (syntax_snd host w) as H2.
        rewrite Hcall in H1. rewrite Hsyn in H2. simpl in H1, H2. congruence. }
      rewrite (applyTransforms_of_this m c w w1 _ s Hsyn
                 (events_after_syntax w w1 s events Hsyn)).
      by rewrite Hcall.
    + by rewrite (applyTransforms_syntax_throw host m c w e w' Hsyn) in Hcall.
Qed.

(** ** The outcomes of [loadGlimmerSyntax] *)

(** [obj['@glimmer/syntax'] && obj['@glimmer/syntax'].print] *)
Definition exposes_syntax (obj : @Grabbed Plugin AST BundleState) : bool :=
  match glimmer_syntax obj with
  | Some mo => match sm_print mo with Some _ => true | None => false end
  | None => false
  end.

Lemma loadGlimmerSyntax_unfold templateCompilerPath (p : Process) bytes :
  files p !! templateCompilerPath = Some bytes ->
  Object_create_writable p = true ->
  let run :=
    new_Function_call host (function_body (utf8_decode bytes))
      (set_Object_create (Interceptor (Object_create p)) p) in
  Object_create_writable (process_after run) = true ->
  loadGlimmerSyntax host templateCompilerPath p
  = (match completion run with
     | Ok theExports =>
         scan_grabbed host templateCompilerPath (utf8_decode bytes) theExports
           (scoped_state run) (constructed run)
     | Throw e => Throw e
     end,
     set_Object_create (Object_create p) (process_after run)).
Proof.
  intros Hfile Hw run Hw'.
  rewrite (loadGlimmerSyntax_outcome host), Hfile, Hw. cbv zeta. fold run. by rewrite Hw'.
Qed.

Lemma scan_grabbed_skips path source theExports state before : forall rest,
  Forall (fun o => exposes_syntax o = false) before ->
  scan_grabbed host path source theExports state (before ++ rest)
  = scan_grabbed host path source theExports state rest.
Proof.
  induction before as [|o before IH]; intros rest Hall; [done|].
  apply Forall_cons in Hall as [Ho Hall]. simpl.
  unfold exposes_syntax in Ho.
  destruct (glimmer_syntax o) as [mo|]; simpl; [|by apply IH].
  destruct (sm_print mo); [done|]. by apply IH.
Qed.

(** X5. When the bundle file is there, [Object.create] can be assigned
    before the call and still can when the bundle has run, and the bundle
    runs to its end, having run with the interceptor as [Object.create]:
    [loadGlimmerSyntax] takes the first constructed object that has a
    [@glimmer/syntax] with a [print], whatever was constructed after it;
    [print] and [preprocess] come from that object, the options builder and
    [registerPlugin] from its compile-options module, [precompile] and
    [_Ember] from the exports of the bundle, and the cache key is the digest
    of the decoded text. When that first object has no compile-options module
    a [TypeError] is thrown, also when a later object is complete. The
    process is left as the bundle left it, with [Object.create] put back. *)
Theorem X5_first_object_with_the_syntax_is_taken
    templateCompilerPath (p : Process) bytes theExports before obj after mo pr :
  files p !! templateCompilerPath = Some bytes ->
  Object_create_writable p = true ->
  let run :=
    new_Function_call host (function_body (utf8_decode bytes))
      (set_Object_create (Interceptor (Object_create p)) p) in
  Object_create_writable (process_after run) = true ->
  completion run = Ok theExports ->
  constructed run = before ++ obj :: after ->
  Forall (fun o => exposes_syntax o = false) before ->
  glimmer_syntax obj = Some mo ->
  sm_print mo = Some pr ->
  loadGlimmerSyntax host templateCompilerPath p
  = (match compile_options obj with
     | Some co =>
         Ok {| gs_preprocess := sm_preprocess mo;
               gs_print := pr;
               gs_defaultOptions := co_default co;
               gs_registerPlugin := co_registerPlugin co;
               gs_precompile := ex_precompile theExports;
               gs_Ember := ex_Ember theExports;
               gs_cacheKey := md5_hex host (utf8_decode bytes);
               gs_internal := scoped_state run |}
     | None => Throw TypeError
     end,
     set_Object_create (Object_create p) (process_after run)).
Proof.
  intros Hfile Hw run Hw' Hc Hgrabbed Hbefore Hmo Hpr.
  rewrite (loadGlimmerSyntax_unfold templateCompilerPath p bytes Hfile Hw Hw'). fold run.
  rewrite Hc, Hgrabbed, (scan_grabbed_skips _ _ _ _ before _ Hbefore).
  simpl. rewrite Hmo. simpl. rewrite Hpr. simpl.
  by destruct (compile_options obj).
Qed.

(** X6. The ways [loadGlimmerSyntax] fails once the file is read. When
    [Object.create] cannot be assigned, installing the interceptor throws a
    [TypeError] and the bundle does not run. When the bundle leaves
    [Object.create] so that it cannot be assigned, the [finally] block throws
    a [TypeError] in place of whatever the bundle returned or threw, and the
    process is as the bundle left it, the interception included. Otherwise
    what the bundle throws is thrown on, and when the bundle runs to its end
    and no constructed object has a [@glimmer/syntax] with a [print] (none
    was constructed at all, say), the error message is
    [unable to find @glimmer/syntax methods in ] followed by the path; in
    these two cases the process is left as the bundle left it, with
    [Object.create] put back. *)
Theorem X6_loadGlimmerSyntax_failures templateCompilerPath (p : Process) bytes :
  files p !! templateCompilerPath = Some bytes ->
  let run :=
    new_Function_call host (function_body (utf8_decode bytes))
      (set_Object_create (Interceptor (Object_create p)) p) in
  let left := set_Object_create (Object_create p) (process_after run) in
  (Object_create_writable p = false ->
     loadGlimmerSyntax host templateCompilerPath p = (Throw TypeError, p)) /\
  (Object_create_writable p = true ->
   Object_create_writable (process_after run) = false ->
     loadGlimmerSyntax host templateCompilerPath p = (Throw TypeError, process_after run)) /\
  (Object_create_writable p = true ->
   Object_create_writable (process_after run) = true ->
     (forall e, completion run = Throw e ->
        loadGlimmerSyntax host templateCompilerPath p = (Throw e, left)) /\
     (forall theExports, completion run = Ok theExports ->
        Forall (fun o => exposes_syntax o = false) (constructed run) ->
        loadGlimmerSyntax host templateCompilerPath p
        = (Throw (Error (lit "unable to find @glimmer/syntax methods in " ++
                         templateCompilerPath)), left))).
Proof.
  intros Hfile run left. split; [|split].
  - intros Hw. by rewrite (loadGlimmerSyntax_outcome host), Hfile, Hw.
  - intros Hw Hw'. rewrite (loadGlimmerSyntax_outcome host), Hfile, Hw. cbv zeta.
    fold run. by rewrite Hw'.
  - intros Hw Hw'.
    rewrite (loadGlimmerSyntax_unfold templateCompilerPath p bytes Hfile Hw Hw').
    fold run left. split.
    + intros e Hc. by rewrite Hc.
    + intros ex Hc Hall. rewrite Hc.
      rewrite <- (app_nil_r (constructed run)).
      by rewrite (scan_grabbed_skips _ _ _ _ _ [] Hall).
Qed.

(** ** The cache key of the filter *)

Lemma cacheKeyProcessString_inv super stage source relativePath w k w1 :
  cacheKeyProcessString host super stage source relativePath w = (Ok k, w1) ->
  exists key,
    cacheKey host w = (Ok key, w1) /\
    k = number_toString (stage_number stage) ++ lit "-" ++ key ++
        super source relativePath.
Proof.
  unfold cacheKeyProcessString, bind.
  destruct (cacheKey host w) as [[key|e] w'] eqn:Hkey; [|done].
  unfold ret. intros [= <- <-]. by exists key.
Qed.

(** X7. The cache key that the filter gives a file starts with the number
    of the stage: a key of stage 1 and a key of stage 3 are never equal,
    whatever the compilers, files and keys of the underlying filter are, so
    what one stage cached is never served to the other. Within one stage, two
    compilers whose own cache keys have the same length and differ give
    different keys to every file. When the compiler cannot be set up there is
    no key: the exception is thrown on. *)
Theorem X7_filter_cache_key_separates_stages
    (super super' : jsstring -> jsstring -> jsstring) w w' source source'
    relativePath relativePath' :
  (forall k1 k3 w1 w3,
     cacheKeyProcessString host super Stage1 source relativePath w = (Ok k1, w1) ->
     cacheKeyProcessString host super' Stage3 source' relativePath' w' = (Ok k3, w3) ->
     k1 <> k3) /\
  (forall stage ka kb wa wb key key',
     cacheKeyProcessString host super stage source relativePath w = (Ok ka, wa) ->
     cacheKeyProcessString host super' stage source' relativePath' w' = (Ok kb, wb) ->
     fst (cacheKey host w) = Ok key -> fst (cacheKey host w') = Ok key' ->
     length key = length key' -> key <> key' -> ka <> kb) /\
  (forall stage e w1, cacheKey host w = (Throw e, w1) ->
     cacheKeyProcessString host super stage source relativePath w = (Throw e, w1)).
Proof.
  split; [|split].
  - intros k1 k3 w1 w3 (key & _ & ->)%cacheKeyProcessString_inv
      (key' & _ & ->)%cacheKeyProcessString_inv.
    by vm_compute.
  - intros stage ka kb wa wb key key'
      (ky & Hky & ->)%cacheKeyProcessString_inv
      (ky' & Hky' & ->)%cacheKeyProcessString_inv Hk Hk' Hlen Hne Heq.
    rewrite Hky in Hk. rewrite Hky' in Hk'. simpl in Hk, Hk'.
    injection Hk as ->. injection Hk' as ->.
    apply app_inv_head, app_inv_head in Heq.
    by apply app_inj_1 in Heq as [? _].
  - intros stage e w1 Hkey. unfold cacheKeyProcessString.
    by rewrite (bind_throw _ _ _ _ _ Hkey).
Qed.

End LifeOfAnInstance.

(** * Properties of [isInlinePrecompilePlugin] *)

(** The strings a regular expression matches as a whole. *)
Fixpoint re_lang (r : RegExp) (x : jsstring) : Prop :=
  match r with
  | RChars chars => x = chars
  | RSeq r1 r2 => exists x1 x2, x = x1 ++ x2 /\ re_lang r1 x1 /\ re_lang r2 x2
  | RAlt r1 r2 => re_lang r1 x \/ re_lang r2 x
  end.

Lemma strip_prefix_spec chars : forall s rest,
  strip_prefix chars s = Some rest <-> s = chars ++ rest.
Proof.
  induction chars as [|ch chars IH]; intros s rest; simpl.
  - split; [by intros [= ->]|by intros ->].
  - destruct s as [|d s]; [done|].
    destruct (N.eqb_spec ch d) as [->|Hne].
    + rewrite IH. split; [by intros ->|by intros [= ->]].
    + split; [done|]. intros [= ? ?]. by destruct Hne.
Qed.

Lemma re_match_spec r : forall s k,
  re_match r s k = true <->
  exists x rest, s = x ++ rest /\ re_lang r x /\ k rest = true.
Proof.
  induction r as [chars|r1 IH1 r2 IH2|r1 IH1 r2 IH2]; intros s k; simpl.
  - destruct (strip_prefix chars s) as [rest|] eqn:Hs.
    + apply strip_prefix_spec in Hs as ->. split.
      * intros Hk. by exists chars, rest.
      * intros (x & rest' & Heq & -> & Hk). by apply app_inv_head in Heq as ->.
    + split; [done|]. intros (x & rest' & -> & -> & _).
      assert (Hsome : strip_prefix chars (chars ++ rest') = Some rest')
        by by apply strip_prefix_spec.
      by rewrite Hsome in Hs.
  - rewrite IH1. split.
    + intros (x1 & rest1 & -> & H1 & (x2 & rest & -> & H2 & Hk)%IH2).
      exists (x1 ++ x2), rest. split; [by rewrite app_assoc|]. split; [|done].
      by exists x1, x2.
    + intros (x & rest & -> & (x1 & x2 & -> & H1 & H2) & Hk).
      exists x1, (x2 ++ rest). split; [by rewrite app_assoc|]. split; [done|].
      apply IH2. by exists x2, rest.
  - rewrite orb_true_iff, IH1, IH2. split.
    + intros [(x & rest & -> & H & Hk)|(x & rest & -> & H & Hk)];
        exists x, rest; (split; [done|]); (split; [|done]); [by left|by right].
    + intros (x & rest & -> & [H|H] & Hk); [left|right]; by exists x, rest.
Qed.

Lemma test_to_end_spec r s :
  test_to_end r s = true <-> exists before x, s = before ++ x /\ re_lang r x.
Proof.
  unfold test_to_end. rewrite existsb_exists. split.
  - intros (i & _ & (x & rest & Hdrop & Hx & Hrest)%re_match_spec).
    apply bool_decide_eq_true in Hrest as ->. rewrite app_nil_r in Hdrop.
    exists (take i s), x. split; [|done]. by rewrite <- Hdrop, take_drop.
  - intros (before & x & -> & Hx). exists (length before). split.
    + apply in_seq. rewrite length_app. lia.
    + apply re_match_spec. exists x, []. rewrite drop_app_length, app_nil_r.
      split; [done|]. split; [done|]. by apply bool_decide_eq_true.
Qed.

(** X8. [matchesSourceFile] holds of a file name exactly when the name ends
    in [babel-plugin-htmlbars-inline-precompile/index.js] or in
    [babel-plugin-htmlbars-inline-precompile/lib/require-from-worker.js],
    whatever precedes: the directory the package is installed in plays no
    part, and no other file of the package matches. *)
Theorem X8_matchesSourceFile_is_a_suffix_test (filename : jsstring) :
  matchesSourceFile filename = true <->
  exists before,
    filename = before ++ lit "babel-plugin-htmlbars-inline-precompile/index.js" \/
    filename
    = before ++ lit "babel-plugin-htmlbars-inline-precompile/lib/require-from-worker.js".
Proof.
  unfold matchesSourceFile. rewrite test_to_end_spec. split.
  - intros (before & x & -> & (x1 & x23 & -> & -> & (x2 & x3 & -> & Halt & ->))).
    exists before. destruct Halt as [->| ->]; [by left|by right].
  - intros (before & [->| ->]).
    + exists before, (lit "babel-plugin-htmlbars-inline-precompile/index.js").
      split; [done|].
      exists (lit "babel-plugin-htmlbars-inline-precompile/"), (lit "index.js").
      split; [done|]. split; [done|].
      exists (lit "index"), (lit ".js"). split; [done|]. split; [by left|done].
    + exists before,
        (lit "babel-plugin-htmlbars-inline-precompile/lib/require-from-worker.js").
      split; [done|].
      exists (lit "babel-plugin-htmlbars-inline-precompile/"),
        (lit "lib/require-from-worker.js").
      split; [done|]. split; [done|].
      exists (lit "lib/require-from-worker"), (lit ".js").
      split; [done|]. split; [by right|done].
Qed.

(** X9. Putting a plugin item first in an array, as babel's
    [[plugin, options]] form does, does not change the answer of
    [isInlinePrecompilePlugin], for every item that is not itself an array
    and whatever follows it in the array. The empty array, an array that
    starts with an array, a value without properties, an object without
    [_parallelBabel] and an object whose [_parallelBabel] has no
    [requireFile] are not the plugin. *)
Theorem X9_isInlinePrecompilePlugin_looks_into_one_array :
  (forall item rest, (forall elements, item <> ItemArray elements) ->
     isInlinePrecompilePlugin (ItemArray (item :: rest)) = isInlinePrecompilePlugin item) /\
  isInlinePrecompilePlugin (ItemArray []) = false /\
  (forall elements rest,
     isInlinePrecompilePlugin (ItemArray (ItemArray elements :: rest)) = false) /\
  isInlinePrecompilePlugin ItemPrimitive = false /\
  isInlinePrecompilePlugin (ItemObject None) = false /\
  isInlinePrecompilePlugin (ItemObject (Some None)) = false.
Proof.
  split; [|by vm_compute].
  intros [f|pb|elements|] rest Hitem; try done.
  by destruct (Hitem elements).
Qed.

(** * Properties of [Snitch] *)

(** The files of a walk that fail the test of [allowedPaths], in walk order. *)
Definition bad_paths (allowed : jsstring -> bool) (files_walked : list jsstring)
    : list jsstring :=
  List.filter (fun filename => negb (allowed filename)) files_walked.

Lemma foldl_push_bad allowed files_walked : forall badPaths,
  foldl (push_bad allowed) badPaths files_walked
  = badPaths ++ bad_paths allowed files_walked.
Proof.
  induction files_walked as [|f files_walked IH]; intros badPaths; simpl.
  - by rewrite app_nil_r.
  - rewrite IH. unfold push_bad. destruct (negb (allowed f)); [|done].
    by rewrite <- app_assoc.
Qed.

Lemma Snitch_build_unchecked b st :
  mustCheck st = false ->
  Snitch_build b st
  = (funnel_completion b,
     {| allowedPaths := allowedPaths st; mustCheck := false;
        reported := reported st; funnel_builds := S (funnel_builds st) |}).
Proof.
  intros Hm. unfold Snitch_build, bind, get. rewrite Hm.
  unfold ret, call_super_build. simpl. by rewrite Hm.
Qed.

Lemma Snitch_build_checked b st :
  mustCheck st = true ->
  Snitch_build b st
  = match bad_paths (allowedPaths st) (walk b) with
    | [] =>
        (funnel_completion b,
         {| allowedPaths := allowedPaths st; mustCheck := false;
            reported := reported st; funnel_builds := S (funnel_builds st) |})
    | bad =>
        match foundBadPaths_completion b with
        | Ok _ =>
            (funnel_completion b,
             {| allowedPaths := allowedPaths st; mustCheck := false;
                reported := reported st ++ [bad];
                funnel_builds := S (funnel_builds st) |})
        | Throw e =>
            (Throw e,
             {| allowedPaths := allowedPaths st; mustCheck := true;
                reported := reported st ++ [bad];
                funnel_builds := funnel_builds st |})
        end
    end.
Proof.
  intros Hm. unfold Snitch_build, bind, get. rewrite Hm.
  rewrite foldl_push_bad, app_nil_l.
  destruct (bad_paths (allowedPaths st) (walk b)) as [|f bad]; simpl; [done|].
  unfold call_foundBadPaths. rewrite Hm.
  by destruct (foundBadPaths_completion b) as [[]|e].
Qed.

(** X10. In one build the callback [foundBadPaths] is called at most once;
    it is called only while the check is due, and then only when some file
    of the walk fails the test of [allowedPaths], with exactly the failing
    files in the order of the walk: never with an empty list, never with a
    file that passes the test. This holds however the callback and the
    funnel complete. *)
Theorem X10_Snitch_reports_the_failing_files b st :
  let bad := bad_paths (allowedPaths st) (walk b) in
  reported (snd (Snitch_build b st))
  = reported st ++
    (if mustCheck st then match bad with [] => [] | _ => [bad] end else []) /\
  (forall filename, filename ∈ bad <->
     filename ∈ walk b /\ allowedPaths st filename = false) /\
  allowedPaths (snd (Snitch_build b st)) = allowedPaths st.
Proof.
  cbv zeta. split; [|split].
  - destruct (mustCheck st) eqn:Hm.
    + rewrite (Snitch_build_checked b st Hm).
      destruct (bad_paths (allowedPaths st) (walk b)) as [|f bad];
        [by rewrite app_nil_r|].
      by destruct (foundBadPaths_completion b).
    + rewrite (Snitch_build_unchecked b st Hm). by rewrite app_nil_r.
  - intros filename. unfold bad_paths.
    rewrite !list_elem_of_In, filter_In, negb_true_iff. done.
  - destruct (mustCheck st) eqn:Hm.
    + rewrite (Snitch_build_checked b st Hm).
      destruct (bad_paths (allowedPaths st) (walk b)) as [|f bad]; [done|].
      by destruct (foundBadPaths_completion b).
    + by rewrite (Snitch_build_unchecked b st Hm).
Qed.

Lemma Snitch_builds_unchecked builds : forall st,
  mustCheck st = false ->
  Snitch_builds st builds
  = {| allowedPaths := allowedPaths st; mustCheck := false;
       reported := reported st; funnel_builds := funnel_builds st + length builds |}.
Proof.
  induction builds as [|b builds IH]; intros st Hm.
  - simpl. rewrite Nat.add_0_r. destruct st; simpl in *. by subst.
  - unfold Snitch_builds in *. simpl. rewrite (Snitch_build_unchecked b st Hm). simpl.
    rewrite IH by done. simpl. f_equal. lia.
Qed.

(** X11. A new snitch checks the first build only. When the callback does
    not throw there (or is not called, no file failing the test), then after
    any later builds, whatever their trees contain and however the funnel
    completes, the only report is the one of the first build, and the funnel
    was built once per build: the snitch reports and never blocks. *)
Theorem X11_Snitch_checks_the_first_build_only allowed first later :
  foundBadPaths_completion first = Ok tt \/ bad_paths allowed (walk first) = [] ->
  let st := Snitch_builds (new_Snitch allowed) (first :: later) in
  reported st
  = match bad_paths allowed (walk first) with [] => [] | bad => [bad] end /\
  mustCheck st = false /\
  funnel_builds st = S (length later).
Proof.
  intros Hfirst. cbv zeta. unfold Snitch_builds. simpl.
  rewrite (Snitch_build_checked first (new_Snitch allowed) eq_refl). simpl.
  fold (Snitch_builds).
  destruct (bad_paths allowed (walk first)) as [|f bad] eqn:Hbad.
  - simpl. change (foldl _ ?st later) with (Snitch_builds st later).
    by rewrite Snitch_builds_unchecked.
  - destruct Hfirst as [Hok|]; [|done]. rewrite Hok. simpl.
    change (foldl _ ?st later) with (Snitch_builds st later).
    by rewrite Snitch_builds_unchecked.
Qed.

(** X12. When the callback throws, the exception leaves [build()] before
    [mustCheck] is cleared and before the funnel is built: the build fails,
    and the next build checks its tree again and calls the callback again
    when a file of it fails the test. *)
Theorem X12_Snitch_checks_again_after_a_throwing_callback b st e next :
  mustCheck st = true ->
  bad_paths (allowedPaths st) (walk b) <> [] ->
  foundBadPaths_completion b = Throw e ->
  let st' := snd (Snitch_build b st) in
  fst (Snitch_build b st) = Throw e /\
  mustCheck st' = true /\
  funnel_builds st' = funnel_builds st /\
  reported (snd (Snitch_build next st'))
  = reported st ++ [bad_paths (allowedPaths st) (walk b)] ++
    match bad_paths (allowedPaths st) (walk next) with [] => [] | bad => [bad] end.
Proof.
  intros Hm Hbad Hthrow. cbv zeta.
  rewrite (Snitch_build_checked b st Hm), Hthrow.
  destruct (bad_paths (allowedPaths st) (walk b)) as [|f bad] eqn:Hb; [done|]. simpl.
  split; [done|]. split; [done|]. split; [done|].
  rewrite Snitch_build_checked by done. simpl.
  destruct (bad_paths (allowedPaths st) (walk next)) as [|g bad']; [done|].
  destruct (foundBadPaths_completion next); simpl; by rewrite <- app_assoc.
Qed.

(** * More properties of [initializeEmberENV] and of the lines of [compile] *)

Section Environment.

Context {Plugin AST BundleState : Type}.
Implicit Types (s : @GlimmerSyntax Plugin AST BundleState).

Lemma EmberGlobal_eq (a b : EmberGlobal) :
  FEATURES a = FEATURES b -> ENV a = ENV b -> a = b.
Proof. destruct a, b. simpl. by intros -> ->. Qed.

(** X13. [initializeEmberENV] can be applied again without effect: the
    compiler after two applications of one configuration is the compiler
    after one, unless the configuration or its [FEATURES] has an own property
    [__proto__] that holds an object or [null] (the first application then
    replaces the prototype of a table, and the second may find a table on
    which [__proto__] is a property like the others). It never removes a key
    from the feature table or from the environment table of the compiler,
    whatever the configuration is. *)
Theorem X13_initializeEmberENV_is_idempotent s env :
  (replaces_prototype (get_prop env (lit "__proto__")) = false ->
   replaces_prototype (get_prop (get_prop env (lit "FEATURES")) (lit "__proto__")) = false ->
   initializeEmberENV (initializeEmberENV s env) env = initializeEmberENV s env) /\
  (forall k, is_Some (entries (FEATURES (gs_Ember s)) !! k) ->
     is_Some (entries (FEATURES (gs_Ember (initializeEmberENV s env))) !! k)) /\
  (forall k, is_Some (entries (ENV (gs_Ember s)) !! k) ->
     is_Some (entries (ENV (gs_Ember (initializeEmberENV s env))) !! k)).
Proof.
  destruct (truthy env) eqn:Ht.
  - split; [|split].
    + intros Henv Hfeatures.
      assert (He : gs_Ember (initializeEmberENV (initializeEmberENV s env) env)
                   = gs_Ember (initializeEmberENV s env)).
      { rewrite (initializeEmberENV_Ember (initializeEmberENV s env) env Ht).
        rewrite (initializeEmberENV_Ember s env Ht). cbn [FEATURES ENV].
        apply EmberGlobal_eq; cbn [FEATURES ENV].
        - destruct (truthy (get_prop env (lit "FEATURES"))); [|done].
          apply assign_all_again; [apply NoDup_Object_keys|done].
        - apply assign_all_again; [apply NoDup_env_keys|done]. }
      rewrite (initializeEmberENV_keeps (initializeEmberENV s env) env), He.
      by destruct (initializeEmberENV s env).
    + intros k Hk. rewrite (initializeEmberENV_Ember s env Ht). cbn [FEATURES].
      destruct (truthy (get_prop env (lit "FEATURES"))); [|done].
      by apply assign_all_keeps.
    + intros k Hk. rewrite (initializeEmberENV_Ember s env Ht). cbn [ENV].
      by apply assign_all_keeps.
  - unfold initializeEmberENV. rewrite Ht. simpl. by rewrite ?Ht.
Qed.

End Environment.

(** ** The bindings of the imports *)

Lemma digits_then_other (l1 : jsstring) : forall (l2 : jsstring) c r1 r2,
  Forall is_digit l1 -> Forall is_digit l2 -> ~ is_digit c ->
  l1 ++ c :: r1 = l2 ++ c :: r2 -> l1 = l2 /\ r1 = r2.
Proof.
  induction l1 as [|a l1 IH]; intros l2 c r1 r2 H1 H2 Hc Heq.
  - destruct l2 as [|b l2]; simpl in Heq; [by injection Heq as ->|].
    injection Heq as <- _. apply Forall_cons in H2 as [Hb _]. by destruct Hc.
  - destruct l2 as [|b l2]; simpl in Heq.
    + injection Heq as -> _. apply Forall_cons in H1 as [Ha _]. by destruct Hc.
    + injection Heq as -> Heq.
      apply Forall_cons in H1 as [_ H1]. apply Forall_cons in H2 as [_ H2].
      destruct (IH l2 c r1 r2 H1 H2 Hc Heq) as [-> ->]. done.
Qed.

Lemma import_line_inj i j d d' :
  import_line i d = import_line j d' -> i = j /\ path d = path d'.
Proof.
  unfold import_line. intros H. apply app_inv_head in H.
  change (lit " from " ++ ?x) with (32%N :: lit "from " ++ x) in H.
  apply digits_then_other in H as [Hn Hrest];
    [|apply uint_units_digits|apply uint_units_digits|unfold is_digit; lia].
  split; [by apply number_toString_inj|].
  apply app_inv_head, app_inv_head in Hrest.
  rewrite !(app_assoc (path _)) in Hrest.
  apply app_inv_tail in Hrest. by apply app_inv_tail in Hrest.
Qed.

(** X14. Every dependency gets a binding of its own: the decimal numbers of
    two different positions differ, an import line determines the position
    and the path it was made from, and in the lines of [compile] the import
    lines of two different positions of the dependency sequence are
    different lines, also when the two dependencies are equal. *)
Theorem X14_import_bindings_are_distinct (r : Precompiled) :
  (forall i j, number_toString i = number_toString j -> i = j) /\
  (forall i j d d', import_line i d = import_line j d' -> i = j /\ path d = path d') /\
  (forall i j d d',
     dependencies r !! i = Some d -> dependencies r !! j = Some d' -> i <> j ->
     compile_lines r !! (2 * i) <> compile_lines r !! (2 * j)).
Proof.
  split; [exact number_toString_inj|]. split; [exact import_line_inj|].
  intros i j d d' Hi Hj Hne Heq.
  rewrite compile_lines_eq in Heq.
  destruct (dependency_lines_lookup _ 0 i d Hi) as [H1 _].
  destruct (dependency_lines_lookup _ 0 j d' Hj) as [H2 _].
  apply lookup_lt_Some in Hi, Hj.
  rewrite !lookup_app_l in Heq by (rewrite length_dependency_lines; lia).
  rewrite H1, H2 in Heq. apply (inj Some) in Heq.
  apply import_line_inj in Heq as [Heq _]. by apply Hne.
Qed.

(** ** What the cache keys do not reflect *)

Section CacheKeyBlindSpot.

Context {Plugin AST BundleState : Type}.
Variable host : @Host Plugin AST BundleState.

(** X15. The cache keys do not reflect the plugins, the resolver or the
    environment of a compiler (the source marks the resolver as to do): two
    compilers that set themselves up from bundle files with the same bytes
    give a file the same filter cache key at a stage, however their plugin
    lists, resolvers and configurations differ. *)
Theorem X15_cache_keys_ignore_plugins_and_resolver
    (super : jsstring -> jsstring -> jsstring) stage source relativePath
    (w1 w2 : @World Plugin AST BundleState) bytes k1 k2 w1' w2' :
  memoized_setup (this w1) = None ->
  memoized_setup (this w2) = None ->
  files (process w1) !! compilerPath (params (this w1)) = Some bytes ->
  files (process w2) !! compilerPath (params (this w2)) = Some bytes ->
  cacheKeyProcessString host super stage source relativePath w1 = (Ok k1, w1') ->
  cacheKeyProcessString host super stage source relativePath w2 = (Ok k2, w2') ->
  k1 = k2.
Proof.
  intros Hm1 Hm2 Hf1 Hf2
    (key1 & Hk1 & ->)%cacheKeyProcessString_inv
    (key2 & Hk2 & ->)%cacheKeyProcessString_inv.
  apply (cacheKey_first host _ _ _ _ Hm1 Hf1) in Hk1.
  apply (cacheKey_first host _ _ _ _ Hm2 Hf2) in Hk2.
  by rewrite Hk1, Hk2.
Qed.

End CacheKeyBlindSpot.

(** * Worked examples for the further properties *)

(** X1 on a bundle that throws. *)
Lemma X1_bundle_that_throws :
  call_completion hostile_host plain_world (CallCompile (lit "greeting") (lit "Hello"))
  = Throw (Raised (VStr (lit "boom"))) /\
  this (run_call hostile_host plain_world (CallCompile (lit "greeting") (lit "Hello")))
  = this plain_world.
Proof.
  destruct (X1_failed_setup_leaves_the_instance hostile_host plain_world
              (Raised (VStr (lit "boom")))
              (snd (loadGlimmerSyntax hostile_host path_a demo_process))
              (CallCompile (lit "greeting") (lit "Hello")))
    as (Hthrow & Hrun & _); [reflexivity|vm_compute; reflexivity|].
  split; [exact Hthrow|]. rewrite Hrun. reflexivity.
Defined.

(** X3 on a core whose bundle file is removed after the first [cacheKey]. *)
Lemma X3_key_survives_a_removed_bundle :
  fst (cacheKey demo_host
         (run_events demo_host (snd (cacheKey demo_host plain_world))
            [ MethodCall (CallCompile (lit "greeting") (lit "Hello"));
              ProcessChange emptied_process;
              MethodCall (CallParse (lit "greeting") (lit "Hello")) ]))
  = Ok demo_key.
Proof.
  destruct (X3_cacheKey_is_kept_for_life demo_host plain_world demo_key
              (snd (cacheKey demo_host plain_world))
              [ MethodCall (CallCompile (lit "greeting") (lit "Hello"));
                ProcessChange emptied_process;
                MethodCall (CallParse (lit "greeting") (lit "Hello")) ])
    as [_ Hkey]; [vm_compute; reflexivity|].
  exact Hkey.
Defined.

(** X4 on the core with two plugins: the transformed template is the same
    after the bundle file was removed and other methods were called. *)
Lemma X4_same_output_after_other_calls :
  fst (applyTransforms demo_host (lit "greeting") (lit "Hello")
         (run_events demo_host
            (snd (applyTransforms demo_host (lit "greeting") (lit "Hello") two_plugin_world))
            [ ProcessChange emptied_process;
              MethodCall (CallCompile (lit "other") (lit "Bye")) ]))
  = Ok (lit "Hello <!-- p0,p1 -->") /\
  fst (compile demo_host (lit "greeting") (lit "Hello")
         (run_events demo_host
            (snd (compile demo_host (lit "greeting") (lit "Hello") plain_world))
            [ ProcessChange emptied_process; MethodCall CallCacheKey ]))
  = Ok (lit "export default Ember.HTMLBars.template(" ++
        dquote ++ lit "Hello" ++ dquote ++ lit ");").
Proof.
  split.
  - apply (X4_outputs_are_repeatable demo_host (lit "greeting") (lit "Hello")
             two_plugin_world). vm_compute. reflexivity.
  - apply (X4_outputs_are_repeatable demo_host (lit "greeting") (lit "Hello")
             plain_world). vm_compute. reflexivity.
Defined.

(** X5 on the small bundle: the first constructed object is skipped. *)
Lemma X5_demo_bundle_is_extracted :
  loadGlimmerSyntax demo_host path_a demo_process = (Ok demo_syntax, demo_process).
Proof.
  apply (X5_first_object_with_the_syntax_is_taken demo_host path_a demo_process bundle_a
           demo_exports [ {| glimmer_syntax := None; compile_options := None |} ]
           demo_modules []
           {| sm_print := Some demo_print; sm_preprocess := demo_preprocess |}
           demo_print); try reflexivity.
  repeat constructor.
Defined.

(** X6 on a bundle that throws, on a bundle that constructs nothing, on a
    bundle that makes [Object.create] read-only, and in a process where it is
    read-only from the start. *)
Lemma X6_two_failing_bundles :
  fst (loadGlimmerSyntax hostile_host path_a demo_process)
  = Throw (Raised (VStr (lit "boom"))) /\
  fst (loadGlimmerSyntax blank_host path_a demo_process)
  = Throw (Error (lit "unable to find @glimmer/syntax methods in /a/ember-template-compiler.js")) /\
  loadGlimmerSyntax pinning_host path_a demo_process
  = (Throw TypeError, pin_Object_create (set_Object_create (Interceptor NativeCreate) demo_process)) /\
  loadGlimmerSyntax demo_host path_a (pin_Object_create demo_process)
  = (Throw TypeError, pin_Object_create demo_process).
Proof.
  destruct (X6_loadGlimmerSyntax_failures hostile_host path_a demo_process bundle_a
              eq_refl) as (_ & _ & Hthrows).
  destruct (Hthrows eq_refl eq_refl) as [Hthrows' _].
  destruct (X6_loadGlimmerSyntax_failures blank_host path_a demo_process bundle_a
              eq_refl) as (_ & _ & Hnone).
  destruct (Hnone eq_refl eq_refl) as [_ Hnone'].
  destruct (X6_loadGlimmerSyntax_failures pinning_host path_a demo_process bundle_a
              eq_refl) as (_ & Hpinned & _).
  destruct (X6_loadGlimmerSyntax_failures demo_host path_a (pin_Object_create demo_process)
              bundle_a eq_refl) as (Hfirst & _).
  split; [|split; [|split]].
  - rewrite (Hthrows' (Raised (VStr (lit "boom"))) eq_refl). reflexivity.
  - rewrite (Hnone' demo_exports eq_refl (Forall_nil_2 _)). reflexivity.
  - rewrite (Hpinned eq_refl eq_refl). reflexivity.
  - rewrite (Hfirst eq_refl). reflexivity.
Defined.

(** X7 on one file at the two stages. *)
Lemma X7_keys_of_the_two_stages :
  fst (cacheKeyProcessString demo_host demo_super_cacheKey Stage1
         (lit "Hello") (lit "greeting.hbs") plain_world)
  = Ok (lit "1-" ++ demo_key ++ lit "[Hello]") /\
  fst (cacheKeyProcessString demo_host demo_super_cacheKey Stage3
         (lit "Hello") (lit "greeting.hbs") plain_world)
  = Ok (lit "3-" ++ demo_key ++ lit "[Hello]") /\
  lit "1-" ++ demo_key ++ lit "[Hello]" <> lit "3-" ++ demo_key ++ lit "[Hello]".
Proof.
  split; [vm_compute; reflexivity|]. split; [vm_compute; reflexivity|].
  destruct (X7_filter_cache_key_separates_stages demo_host
              demo_super_cacheKey demo_super_cacheKey plain_world plain_world
              (lit "Hello") (lit "Hello") (lit "greeting.hbs") (lit "greeting.hbs"))
    as [Hstages _].
  apply (Hstages _ _
           (snd (cacheKey demo_host plain_world)) (snd (cacheKey demo_host plain_world)));
    vm_compute; reflexivity.
Defined.

(** X8 on an installed copy of the package. *)
Lemma X8_worker_file_matches :
  matchesSourceFile
    (lit "/app/node_modules/" ++
     lit "babel-plugin-htmlbars-inline-precompile/lib/require-from-worker.js")
  = true.
Proof.
  apply X8_matchesSourceFile_is_a_suffix_test.
  exists (lit "/app/node_modules/"). right. reflexivity.
Defined.

(** X9 on the plugin given with options. *)
Lemma X9_plugin_with_options :
  isInlinePrecompilePlugin
    (ItemArray
       [ ItemString (lit "/app/node_modules/babel-plugin-htmlbars-inline-precompile/index.js");
         ItemObject None ])
  = true.
Proof.
  destruct X9_isInlinePrecompilePlugin_looks_into_one_array as [Hwrap _].
  rewrite Hwrap by discriminate. vm_compute. reflexivity.
Defined.

(** X11 on two builds: the file that appears in the later tree is not
    reported, and the funnel is built twice although its second build
    throws. *)
Lemma X11_late_file_is_not_reported :
  let st :=
    Snitch_builds (new_Snitch demo_allowed)
      [ {| walk := demo_first_walk; foundBadPaths_completion := Ok tt;
           funnel_completion := Ok tt |};
        {| walk := demo_later_walk; foundBadPaths_completion := Ok tt;
           funnel_completion := Throw TypeError |} ] in
  reported st = [[lit "other/a.js"; lit "c.js"]] /\ funnel_builds st = 2.
Proof.
  destruct (X11_Snitch_checks_the_first_build_only demo_allowed
              {| walk := demo_first_walk; foundBadPaths_completion := Ok tt;
                 funnel_completion := Ok tt |}
              [ {| walk := demo_later_walk; foundBadPaths_completion := Ok tt;
                   funnel_completion := Throw TypeError |} ])
    as (Hreported & _ & Hbuilds); [left; reflexivity|].
  split; [exact Hreported | exact Hbuilds].
Defined.

(** X12 on a callback that throws at the first build. *)
Lemma X12_second_report_after_a_throw :
  let first :=
    {| walk := demo_first_walk; foundBadPaths_completion := Throw TypeError;
       funnel_completion := Ok tt |} in
  let next :=
    {| walk := demo_later_walk; foundBadPaths_completion := Ok tt;
       funnel_completion := Ok tt |} in
  fst (Snitch_build first (new_Snitch demo_allowed)) = Throw TypeError /\
  reported (snd (Snitch_build next (snd (Snitch_build first (new_Snitch demo_allowed)))))
  = [[lit "other/a.js"; lit "c.js"]; [lit "late.js"]].
Proof.
  cbv zeta.
  destruct (X12_Snitch_checks_again_after_a_throwing_callback
              {| walk := demo_first_walk; foundBadPaths_completion := Throw TypeError;
                 funnel_completion := Ok tt |}
              (new_Snitch demo_allowed) TypeError
              {| walk := demo_later_walk; foundBadPaths_completion := Ok tt;
                 funnel_completion := Ok tt |})
    as (Hthrow & _ & _ & Hreported); [reflexivity|discriminate|reflexivity|].
  split; [exact Hthrow | exact Hreported].
Defined.

(** X13 on a compiler whose tables are filled: a second configuration keeps
    the keys of the first, and the first configuration again changes
    nothing. *)
Lemma X13_keys_are_kept :
  is_Some
    (entries
       (ENV (gs_Ember
               (initializeEmberENV (initializeEmberENV demo_syntax demo_EmberENV)
                  (VObj {[ lit "LOG_VERSION" := VNum 2 ]}))))
     !! lit "EXTEND_PROTOTYPES") /\
  initializeEmberENV (initializeEmberENV demo_syntax demo_EmberENV) demo_EmberENV
  = initializeEmberENV demo_syntax demo_EmberENV.
Proof.
  destruct (X13_initializeEmberENV_is_idempotent
              (initializeEmberENV demo_syntax demo_EmberENV)
              (VObj {[ lit "LOG_VERSION" := VNum 2 ]})) as (_ & _ & Henv).
  destruct (X13_initializeEmberENV_is_idempotent demo_syntax demo_EmberENV)
    as (Hagain & _ & _).
  split.
  - apply Henv. exists (VBool false). vm_compute. reflexivity.
  - apply Hagain; reflexivity.
Defined.

(** X14 on a module that depends on the same module twice. *)
Lemma X14_equal_dependencies_distinct_lines :
  let d := {| runtimeName := lit "a"; path := lit "./a" |} in
  let r := {| compiled := lit "{}"; dependencies := [d; d] |} in
  compile_lines r !! 0 <> compile_lines r !! 2.
Proof.
  cbv zeta.
  destruct (X14_import_bindings_are_distinct
              {| compiled := lit "{}";
                 dependencies := [ {| runtimeName := lit "a"; path := lit "./a" |};
                                   {| runtimeName := lit "a"; path := lit "./a" |} ] |})
    as (_ & _ & Hlines).
  apply (Hlines 0 1 _ _ eq_refl eq_refl). discriminate.
Defined.

(** X15 on a core without plugins and a core with two: the filter gives the
    template the same key at stage 1, and the two transform it
    differently. *)
Lemma X15_same_key_other_output :
  fst (cacheKeyProcessString demo_host demo_super_cacheKey Stage1
         (lit "Hello") (lit "greeting.hbs") plain_world)
  = fst (cacheKeyProcessString demo_host demo_super_cacheKey Stage1
           (lit "Hello") (lit "greeting.hbs") two_plugin_world) /\
  fst (applyTransforms demo_host (lit "greeting.hbs") (lit "Hello") plain_world)
  = Ok (lit "Hello <!--  -->") /\
  fst (applyTransforms demo_host (lit "greeting.hbs") (lit "Hello") two_plugin_world)
  = Ok (lit "Hello <!-- p0,p1 -->").
Proof.
  split; [|split; vm_compute; reflexivity].
  destruct (cacheKeyProcessString demo_host demo_super_cacheKey Stage1
              (lit "Hello") (lit "greeting.hbs") plain_world) as [[k1|e1] w1'] eqn:H1;
    [|revert H1; vm_compute; discriminate].
  destruct (cacheKeyProcessString demo_host demo_super_cacheKey Stage1
              (lit "Hello") (lit "greeting.hbs") two_plugin_world) as [[k2|e2] w2'] eqn:H2;
    [|revert H2; vm_compute; discriminate].
  simpl. f_equal.
  apply (X15_cache_keys_ignore_plugins_and_resolver demo_host demo_super_cacheKey Stage1
           (lit "Hello") (lit "greeting.hbs") plain_world two_plugin_world bundle_a
           k1 k2 w1' w2'); try reflexivity; assumption.
Defined.
